(** * server.js: the video automation API, embedded shallowly

    The Express application of [src/server.js] is modelled as functions in a
    small state-and-exception monad over a [World] that holds the local
    scratch file system, the storage bucket, the clock and a trace of the
    externally visible actions.  The external collaborators (multer, the
    transcoding engine, the storage service, [path.resolve]) appear as
    inputs: the request that multer built, the terminal signal of the
    engine, and the answers of the storage client. *)

From stdpp Require Import gmap strings list fin_maps pretty.
From Stdlib Require Import ZArith Lia Ascii.

(** ** JavaScript values that reach the code *)

Local Set Warnings "-register-all".

(** A plain form field holds a string; multer turns a repeated field into
    an array and a bracketed field name such as [w[a]] into an object
    without prototype; the destructuring defaults are numbers. *)
Inductive JsValue :=
| JNum (n : Z)
| JStr (s : string)
| JArr (items : list JsValue)
| JObj (fields : list (string * JsValue)).

(** [`${v}`]: the template literal conversion.  An array is joined with
    commas; an object without prototype has no [toString] and the
    conversion raises a TypeError ([None]). *)
Fixpoint toString (v : JsValue) : option string :=
  match v with
  | JNum n => Some (pretty n)
  | JStr s => Some s
  | JArr items =>
      String.concat "," <$>
        (fix each (l : list JsValue) : option (list string) :=
           match l with
           | [] => Some []
           | x :: r =>
               match toString x, each r with
               | Some s, Some ss => Some (s :: ss)
               | _, _ => None
               end
           end) items
  | JObj _ => None
  end.

(** Truthiness of a string: only the empty string is falsy. *)
Definition truthy (s : string) : bool :=
  match s with
  | EmptyString => false
  | String _ _ => true
  end.

(** An exception value; the code only ever reads [err.message]. *)
Record JsError := mkError { message : string }.

Inductive JsonValue :=
| JsonBool (b : bool)
| JsonString (s : string).

(** A JSON object literal, key by key in source order. *)
Abbreviation JsonObject := (list (string * JsonValue)).

(** ** path.basename (POSIX, no extension argument)

    Node scans the path from its end: trailing slashes are skipped, and
    the result is the run of characters before them back to the previous
    slash. *)

Definition is_slash (c : ascii) : bool := Ascii.eqb c "/"%char.

Fixpoint skip_slashes (l : list ascii) : list ascii :=
  match l with
  | [] => []
  | c :: r => if is_slash c then skip_slashes r else l
  end.

Fixpoint until_slash (l : list ascii) : list ascii :=
  match l with
  | [] => []
  | c :: r => if is_slash c then [] else c :: until_slash r
  end.

Definition basename (p : string) : string :=
  String.string_of_list_ascii
    (rev (until_slash (skip_slashes (rev (String.list_ascii_of_string p))))).

(** ** fluent-ffmpeg command builder

    The builder object accumulates inputs and options; every method
    returns the command.  Option strings are kept as the source writes
    them. *)

Record FfmpegCommand := mkCommand {
  cmd_inputs : list string;
  cmd_startTime : option JsValue;
  cmd_duration : option JsValue;
  cmd_videoFilters : list string;
  cmd_outputOptions : list string }.

Definition ffmpeg (inputs : list string) : FfmpegCommand :=
  mkCommand inputs None None [] [].

Definition input (p : string) (c : FfmpegCommand) : FfmpegCommand :=
  mkCommand (cmd_inputs c ++ [p]) (cmd_startTime c) (cmd_duration c)
            (cmd_videoFilters c) (cmd_outputOptions c).

Definition addInput := input.

Definition setStartTime (v : JsValue) (c : FfmpegCommand) : FfmpegCommand :=
  mkCommand (cmd_inputs c) (Some v) (cmd_duration c)
            (cmd_videoFilters c) (cmd_outputOptions c).

Definition setDuration (v : JsValue) (c : FfmpegCommand) : FfmpegCommand :=
  mkCommand (cmd_inputs c) (cmd_startTime c) (Some v)
            (cmd_videoFilters c) (cmd_outputOptions c).

Definition videoFilters (f : string) (c : FfmpegCommand) : FfmpegCommand :=
  mkCommand (cmd_inputs c) (cmd_startTime c) (cmd_duration c)
            (cmd_videoFilters c ++ [f]) (cmd_outputOptions c).

Definition outputOptions (o : list string) (c : FfmpegCommand) : FfmpegCommand :=
  mkCommand (cmd_inputs c) (cmd_startTime c) (cmd_duration c)
            (cmd_videoFilters c) (cmd_outputOptions c ++ o).

(** ** The world and the trace *)

Inductive Event :=
| FfmpegSave (cmd : FfmpegCommand) (output : string)
| FfmpegMergeToFile (cmd : FfmpegCommand) (output tmpdir : string)
| StorageUpload (fileName content contentType : string) (upsert : bool)
| StorageRemove (names : list string)
| ConsoleError (label msg : string)
| ConsoleLog (msg : string)
| CleanupFiles (files : list string)
| Unlink (file : string)
| Respond (status : Z) (payload : JsonObject).

(** Every trace entry carries the scratch file system as it was when the
    action happened. *)
Record World := mkWorld {
  fs : gmap string string;
  bucket : gmap string string;
  clock : Z;
  trace : list (Event * gmap string string) }.

Inductive Outcome (A : Type) :=
| Returned (a : A)
| Thrown (err : JsError).
Arguments Returned {A} a.
Arguments Thrown {A} err.

Definition Js (A : Type) : Type := World → Outcome A * World.

Global Instance Js_ret : MRet Js := λ A a w, (Returned a, w).

Global Instance Js_bind : MBind Js := λ A B f m w,
  match m w with
  | (Returned a, w') => f a w'
  | (Thrown e, w') => (Thrown e, w')
  end.

Global Instance Js_fmap : FMap Js := λ A B f m w,
  match m w with
  | (Returned a, w') => (Returned (f a), w')
  | (Thrown e, w') => (Thrown e, w')
  end.

Definition throw {A} (e : JsError) : Js A := λ w, (Thrown e, w).

(** [try { body } catch (err) { handler }] *)
Definition try_catch {A} (body : Js A) (handler : JsError → Js A) : Js A :=
  λ w, match body w with
       | (Thrown e, w') => handler e w'
       | r => r
       end.

(** [... finally { fin }]: [fin] runs on both exits; its own exception
    replaces the pending outcome. *)
Definition finally {A} (body : Js A) (fin : Js unit) : Js A :=
  λ w, let '(r, w') := body w in
       match fin w' with
       | (Thrown e, w'') => (Thrown e, w'')
       | (Returned _, w'') => (r, w'')
       end.

Definition emit (e : Event) : Js unit :=
  λ w, (Returned tt,
        mkWorld (fs w) (bucket w) (clock w) (trace w ++ [(e, fs w)])).

Definition set_fs (f : gmap string string) : Js unit :=
  λ w, (Returned tt, mkWorld f (bucket w) (clock w) (trace w)).

Definition set_bucket (b : gmap string string) : Js unit :=
  λ w, (Returned tt, mkWorld (fs w) b (clock w) (trace w)).

Definition get_world : Js World := λ w, (Returned w, w).

(** [Date.now()] *)
Definition Date_now : Js Z := λ w, (Returned (clock w), w).

Fixpoint forEach {A} (l : list A) (f : A → Js unit) : Js unit :=
  match l with
  | [] => mret tt
  | x :: r => f x ;; forEach r f
  end.

(** ** fs: regular files of the scratch store, keyed by path *)

(** Whether a path names a file of the store; the empty path never does. *)
Definition present (m : gmap string string) (file : string) : bool :=
  truthy file && bool_decide (is_Some (m !! file)).

(** [fs.existsSync] *)
Definition existsSync (file : string) : Js bool :=
  w ← get_world;
  mret (present (fs w) file).

(** [fs.unlinkSync] raises ENOENT on a missing file. *)
Definition unlinkSync (file : string) : Js unit :=
  ex ← existsSync file;
  if ex : bool then
    w ← get_world; emit (Unlink file) ;; set_fs (delete file (fs w))
  else throw (mkError ("ENOENT: no such file or directory, unlink '" +:+ file +:+ "'")).

(** [fs.readFileSync] raises ENOENT on a missing file. *)
Definition readFileSync (file : string) : Js string :=
  w ← get_world;
  match fs w !! file with
  | Some content => if truthy file then mret content
                    else throw (mkError "ENOENT: no such file or directory, open ''")
  | None => throw (mkError ("ENOENT: no such file or directory, open '" +:+ file +:+ "'"))
  end.

(** ** Express response *)

(** [res.status(s).json(payload)]; [res.json] alone answers 200. *)
Definition res_status_json (status : Z) (payload : JsonObject) : Js unit :=
  emit (Respond status payload).

Definition res_json (payload : JsonObject) : Js unit :=
  res_status_json 200 payload.

Definition console_error (label msg : string) : Js unit :=
  emit (ConsoleError label msg).

Definition console_log (msg : string) : Js unit :=
  emit (ConsoleLog msg).

(** ** Core helpers *)

(** The callback of [files.forEach] in [cleanupFiles]: line 25. *)
Definition cleanup_step (file : string) : Js unit :=
  if truthy file then
    ex ← existsSync file;
    if ex : bool then unlinkSync file else mret tt
  else mret tt.

(** [cleanupFiles]: lines 23-27. *)
Definition cleanupFiles (files : list string) : Js unit :=
  emit (CleanupFiles files) ;;
  forEach files cleanup_step.

(** A file object of the storage listing; [created_at] is the time value
    that [new Date(f.created_at)] yields, in milliseconds. *)
Record FileObject := mkFileObject {
  name : string;
  created_at : Z }.

(** The storage client of the [videos] bucket, as far as the code
    observes it: whether the service refuses an upload for a reason of its
    own (network, quota, credentials; a name that is taken is dealt with in
    [storage_upload]), what [getPublicUrl] puts in [data.publicUrl], and
    what [list()] puts in [data]. *)
Record SupabaseClient := mkSupabase {
  upload_error : string → string → option JsError;
  publicUrl : string → string;
  list_data : option (list FileObject) }.

(** What the transcoding engine does with a started command: the content
    it leaves at the output path (if any) and its one terminal signal. *)
Inductive Signal :=
| SigEnd
| SigError (err : JsError).

Record EngineRun := mkRun {
  leaves : option string;
  signal : Signal }.

(** The listeners registered on a started command. *)
Record Pending := mkPending {
  target : string;
  on_end : Js unit;
  on_error : JsError → Js unit }.

(** A multer file object. *)
Record MulterFile := mkFile { path : string }.

(** [req.files]: an object keyed by field name ([upload.fields]) or an
    array ([upload.array]). *)
Inductive Files :=
| FilesByField (m : gmap string (list MulterFile))
| FilesArray (l : list MulterFile).

(** The request as multer hands it over.  [file] and [files] stay
    undefined ([None]) when multer did not populate them. *)
Record Request := mkRequest {
  file : option MulterFile;
  files : option Files;
  body : gmap string JsValue }.

Inductive Route := Trim | Crop | AddVoice | AddCaption | Merge.

Definition TypeError_undefined (prop : string) : JsError :=
  mkError ("Cannot read properties of undefined (reading '" +:+ prop +:+ "')").

(** [req.files.<field>]: raises when [req.files] is undefined; an array
    has no such property. *)
Definition files_field (rq : Request) (field : string) : Js (option (list MulterFile)) :=
  match files rq with
  | None => throw (TypeError_undefined field)
  | Some (FilesByField m) => mret (m !! field)
  | Some (FilesArray _) => mret None
  end.

(** [arr[0].path] *)
Definition first_path (l : list MulterFile) : Js string :=
  match l with
  | f :: _ => mret (path f)
  | [] => throw (TypeError_undefined "path")
  end.

(** Destructuring with a default: the default applies to an absent key. *)
Definition field_or (b : gmap string JsValue) (key : string) (dflt : JsValue) : JsValue :=
  match b !! key with
  | Some v => v
  | None => dflt
  end.

(** [`crop=${w}:${h}:${x}:${y}`]: line 90. *)
Definition crop_template (w h x y : JsValue) : option string :=
  sw ← toString w;
  sh ← toString h;
  sx ← toString x;
  sy ← toString y;
  Some ("crop=" +:+ sw +:+ ":" +:+ sh +:+ ":" +:+ sx +:+ ":" +:+ sy).

Definition TypeError_primitive : JsError :=
  mkError "Cannot convert object to primitive value".

Section Server.

(** The process-wide storage client and [path.resolve]. *)
Variable supabase : SupabaseClient.
Variable path_resolve : string → string.

(** [supabase.storage.from('videos').upload(...)]: with [upsert] an
    accepted upload replaces the object of that name; without it the
    service refuses a name that is taken. *)
Definition storage_upload (fileName content contentType : string) (upsert : bool)
  : Js (option JsError) :=
  emit (StorageUpload fileName content contentType upsert) ;;
  match upload_error supabase fileName content with
  | Some e => mret (Some e)
  | None =>
      w ← get_world;
      if upsert || bool_decide (bucket w !! fileName = None) then
        set_bucket (<[fileName := content]> (bucket w)) ;; mret None
      else mret (Some (mkError "The resource already exists"))
  end.

(** [supabase.storage.from('videos').remove(names)] *)
Definition storage_remove (names : list string) : Js unit :=
  emit (StorageRemove names) ;;
  w ← get_world;
  set_bucket (foldr delete (bucket w) names).

(** [uploadToSupabase]: lines 30-39. *)
Definition uploadToSupabase (localFilePath fileName : string) : Js string :=
  fileBuffer ← readFileSync localFilePath;
  error ← storage_upload fileName fileBuffer "video/mp4" true;
  match error with
  | Some e => throw e
  | None => mret (publicUrl supabase fileName)
  end.

(** [processAndUpload]: lines 42-64.  The single response object of the
    request is the trace. *)
Definition processAndUpload (ffmpegCommand : FfmpegCommand) (outputPath : string)
    (inputFiles : list string) : Js Pending :=
  let cmd := outputOptions ["-threads 1"; "-preset ultrafast"] ffmpegCommand in
  let p := {|
    target := outputPath;
    on_end :=
      finally
        (try_catch
           (url ← uploadToSupabase outputPath (basename outputPath);
            res_json [("success", JsonBool true); ("downloadUrl", JsonString url)])
           (λ err,
              console_error "Supabase Error:" (message err) ;;
              res_status_json 500
                [("error", JsonString "Processing succeeded, but cloud upload failed.");
                 ("details", JsonString (message err))]))
        (cleanupFiles (inputFiles ++ [outputPath]));
    on_error := λ err,
      console_error "FFmpeg Error:" (message err) ;;
      cleanupFiles (inputFiles ++ [outputPath]) ;;
      res_status_json 500
        [("error", JsonString "Video processing failed.");
         ("details", JsonString (message err))] |} in
  emit (FfmpegSave cmd outputPath) ;;
  mret p.

(** [`/tmp/<prefix>_${Date.now()}.mp4`] *)
Definition prefix (r : Route) : string :=
  match r with
  | Trim => "trimmed"
  | Crop => "cropped"
  | AddVoice => "voiced"
  | AddCaption => "captioned"
  | Merge => "merged"
  end.

Definition output_path (r : Route) (now : Z) : string :=
  "/tmp/" +:+ prefix r +:+ "_" +:+ pretty now +:+ ".mp4".

Definition bad_request (msg : string) : Js (option Pending) :=
  res_status_json 400 [("error", JsonString msg)] ;; mret None.

(** POST /trim: lines 71-82. *)
Definition trim (req : Request) : Js (option Pending) :=
  match file req with
  | None => bad_request "Video file required."
  | Some f =>
      let startTime := field_or (body req) "startTime" (JNum 0) in
      let duration := field_or (body req) "duration" (JNum 5) in
      now ← Date_now;
      let outputPath := output_path Trim now in
      let cmd := outputOptions ["-c copy"]
                   (setDuration duration (setStartTime startTime (ffmpeg [path f]))) in
      Some <$> processAndUpload cmd outputPath [path f]
  end.

(** POST /crop: lines 85-92. *)
Definition crop (req : Request) : Js (option Pending) :=
  match file req with
  | None => bad_request "Video file required."
  | Some f =>
      let w := field_or (body req) "w" (JNum 1080) in
      let h := field_or (body req) "h" (JNum 1920) in
      let x := field_or (body req) "x" (JNum 0) in
      let y := field_or (body req) "y" (JNum 0) in
      now ← Date_now;
      let outputPath := output_path Crop now in
      match crop_template w h x y with
      | Some filter =>
          let cmd := videoFilters filter (ffmpeg [path f]) in
          Some <$> processAndUpload cmd outputPath [path f]
      | None => throw TypeError_primitive
      end
  end.

(** POST /add-voice: lines 95-104. *)
Definition add_voice (req : Request) : Js (option Pending) :=
  video ← files_field req "video";
  match video with
  | None => bad_request "Video and Audio files required."
  | Some video =>
      audio ← files_field req "audio";
      match audio with
      | None => bad_request "Video and Audio files required."
      | Some audio =>
          now ← Date_now;
          let outputPath := output_path AddVoice now in
          v ← first_path video;
          a ← first_path audio;
          let cmd := outputOptions ["-c:v copy"; "-map 0:v:0"; "-map 1:a:0"; "-shortest"]
                       (addInput a (ffmpeg [v])) in
          Some <$> processAndUpload cmd outputPath [v; a]
      end
  end.

(** POST /add-caption: lines 107-114. *)
Definition add_caption (req : Request) : Js (option Pending) :=
  video ← files_field req "video";
  match video with
  | None => bad_request "Video and .srt Subtitle files required."
  | Some video =>
      subtitle ← files_field req "subtitle";
      match subtitle with
      | None => bad_request "Video and .srt Subtitle files required."
      | Some subtitle =>
          now ← Date_now;
          let outputPath := output_path AddCaption now in
          s ← first_path subtitle;
          let subPath := path_resolve s in
          v ← first_path video;
          let cmd := videoFilters ("subtitles=" +:+ subPath) (ffmpeg [v]) in
          Some <$> processAndUpload cmd outputPath [v; subPath]
      end
  end.

(** POST /merge: lines 117-141. *)
Definition merge (req : Request) : Js (option Pending) :=
  match files req with
  | Some (FilesArray l) =>
      if decide (length l = 2) then
        now ← Date_now;
        let outputPath := output_path Merge now in
        let inputPaths := path <$> l in
        let cmd := outputOptions ["-threads 1"; "-preset ultrafast"]
                     (foldl (λ c p, input p c) (ffmpeg []) inputPaths) in
        let p := {|
          target := outputPath;
          on_end :=
            finally
              (try_catch
                 (url ← uploadToSupabase outputPath (basename outputPath);
                  res_json [("success", JsonBool true); ("downloadUrl", JsonString url)])
                 (λ err,
                    res_status_json 500
                      [("error", JsonString "Cloud upload failed.");
                       ("details", JsonString (message err))]))
              (cleanupFiles (inputPaths ++ [outputPath]));
          on_error := λ err,
            cleanupFiles (inputPaths ++ [outputPath]) ;;
            res_status_json 500
              [("error", JsonString "Merge failed.");
               ("details", JsonString (message err))] |} in
        emit (FfmpegMergeToFile cmd outputPath "/tmp/") ;;
        mret (Some p)
      else bad_request "Exactly 2 videos required."
  | _ => bad_request "Exactly 2 videos required."
  end.

Definition handler (r : Route) : Request → Js (option Pending) :=
  match r with
  | Trim => trim
  | Crop => crop
  | AddVoice => add_voice
  | AddCaption => add_caption
  | Merge => merge
  end.

(** The engine finishes a started command: it leaves its output and fires
    exactly one of the two listeners. *)
Definition engine_finish (run : EngineRun) (p : Pending) : Js unit :=
  w ← get_world;
  match leaves run with
  | Some content => set_fs (<[target p := content]> (fs w))
  | None => mret tt
  end ;;
  match signal run with
  | SigEnd => on_end p
  | SigError err => on_error p err
  end.

(** One request from the route callback to the end of its listener. *)
Definition serve (r : Route) (req : Request) (run : EngineRun) : Js unit :=
  p ← handler r req;
  match p with
  | Some p => engine_finish run p
  | None => mret tt
  end.

(** The hourly sweep: lines 151-159. *)
Definition sweep : Js unit :=
  console_log "Running 24h cleanup..." ;;
  now ← Date_now;
  let oneDayAgo := (now - 24 * 60 * 60 * 1000)%Z in
  match list_data supabase with
  | None => mret tt
  | Some files =>
      let filesToDelete :=
        name <$> filter (λ f, (created_at f < oneDayAgo)%Z) files in
      if decide (0 < length filesToDelete) then storage_remove filesToDelete
      else mret tt
  end.

End Server.

(** ** Vocabulary of the statements *)

(** What [cleanupFiles] leaves of a store, and the unlinks it performs. *)
Fixpoint cleanup_fs (files : list string) (m : gmap string string)
  : gmap string string :=
  match files with
  | [] => m
  | p :: r => cleanup_fs r (if present m p then delete p m else m)
  end.

Fixpoint cleanup_trace (files : list string) (m : gmap string string)
  : list (Event * gmap string string) :=
  match files with
  | [] => []
  | p :: r =>
      if present m p then (Unlink p, m) :: cleanup_trace r (delete p m)
      else cleanup_trace r m
  end.

(** Observers of a trace. *)
Definition cleanup_calls (t : list (Event * gmap string string))
  : list (list string) :=
  omap (λ '(e, _), match e with CleanupFiles l => Some l | _ => None end) t.

Definition responses (t : list (Event * gmap string string))
  : list (Z * JsonObject * gmap string string) :=
  omap (λ '(e, m), match e with Respond s p => Some (s, p, m) | _ => None end) t.

Definition uploads (t : list (Event * gmap string string))
  : list (string * string) :=
  omap (λ '(e, _), match e with
                   | StorageUpload n c _ _ => Some (n, c)
                   | _ => None
                   end) t.

Definition invocations (t : list (Event * gmap string string))
  : list (FfmpegCommand * string) :=
  omap (λ '(e, _), match e with
                   | FfmpegSave c o => Some (c, o)
                   | FfmpegMergeToFile c o _ => Some (c, o)
                   | _ => None
                   end) t.

Definition removals (t : list (Event * gmap string string))
  : list (list string) :=
  omap (λ '(e, _), match e with StorageRemove l => Some l | _ => None end) t.

(** The crop filter text built from a request body, when every geometry
    field converts to text. *)
Definition crop_geometry (b : gmap string JsValue) : option string :=
  crop_template (field_or b "w" (JNum 1080)) (field_or b "h" (JNum 1920))
                (field_or b "x" (JNum 0)) (field_or b "y" (JNum 0)).

(** The input paths of a request that passes the route's validation and
    whose callback gets as far as starting the engine. *)
Definition job_inputs (path_resolve : string → string) (r : Route) (req : Request)
  : option (list string) :=
  match r with
  | Trim => f ← file req; Some [path f]
  | Crop => f ← file req; _ ← crop_geometry (body req); Some [path f]
  | AddVoice =>
      match files req with
      | Some (FilesByField m) =>
          match m !! "video", m !! "audio" with
          | Some (v :: _), Some (a :: _) => Some [path v; path a]
          | _, _ => None
          end
      | _ => None
      end
  | AddCaption =>
      match files req with
      | Some (FilesByField m) =>
          match m !! "video", m !! "subtitle" with
          | Some (v :: _), Some (s :: _) => Some [path v; path_resolve (path s)]
          | _, _ => None
          end
      | _ => None
      end
  | Merge =>
      match files req with
      | Some (FilesArray l) => if decide (length l = 2) then Some (path <$> l) else None
      | _ => None
      end
  end.

(** The trace a run adds to the world it started from. *)
Definition added (w w' : World) : list (Event * gmap string string) :=
  drop (length (trace w)) (trace w').

(** How the upload of a finished output fails, if it does: the output is
    missing, or the storage service refuses it. *)
Definition upload_failure (supabase : SupabaseClient) (m : gmap string string)
    (out : string) : option JsError :=
  match m !! out with
  | Some content => upload_error supabase (basename out) content
  | None => Some (mkError ("ENOENT: no such file or directory, open '" +:+ out +:+ "'"))
  end.

(** The scratch store once the engine has finished. *)
Definition after_engine (run : EngineRun) (out : string) (m : gmap string string)
  : gmap string string :=
  match leaves run with
  | Some content => <[out := content]> m
  | None => m
  end.

(** The payloads of the three terminal branches. *)
Definition error_payload (error details : string) : JsonObject :=
  [("error", JsonString error); ("details", JsonString details)].

Definition success_payload (url : string) : JsonObject :=
  [("success", JsonBool true); ("downloadUrl", JsonString url)].

Definition upload_failed_error (r : Route) : string :=
  match r with
  | Merge => "Cloud upload failed."
  | _ => "Processing succeeded, but cloud upload failed."
  end.

Definition transform_failed_error (r : Route) : string :=
  match r with
  | Merge => "Merge failed."
  | _ => "Video processing failed."
  end.

Definition ENOENT_open (file : string) : JsError :=
  mkError ("ENOENT: no such file or directory, open '" +:+ file +:+ "'").

(** What a listener leaves behind when it is fired in world [w] after the
    engine ran: [t] is the trace it adds, [w'] the world it ends in. *)
Definition job_outcome (supabase : SupabaseClient) (upload_msg transform_msg : string)
    (ins : list string) (out : string) (run : EngineRun) (w w' : World)
    (t : list (Event * gmap string string)) : Prop :=
  let paths := ins ++ [out] in
  let m1 := after_engine run out (fs w) in
  trace w' = trace w ++ t ∧ clock w' = clock w ∧
  fs w' = cleanup_fs paths m1 ∧
  cleanup_calls t = [paths] ∧
  match signal run with
  | SigError e =>
      responses t = [(500%Z, error_payload transform_msg (message e), cleanup_fs paths m1)]
      ∧ uploads t = [] ∧ bucket w' = bucket w
  | SigEnd =>
      match m1 !! out with
      | None =>
          responses t = [(500%Z, error_payload upload_msg (message (ENOENT_open out)), m1)]
          ∧ uploads t = [] ∧ bucket w' = bucket w
      | Some c =>
          uploads t = [(basename out, c)] ∧
          match upload_error supabase (basename out) c with
          | Some e =>
              responses t = [(500%Z, error_payload upload_msg (message e), m1)]
              ∧ bucket w' = bucket w
          | None =>
              responses t
              = [(200%Z, success_payload (publicUrl supabase (basename out)), m1)]
              ∧ bucket w' = <[basename out := c]> (bucket w)
          end
      end
  end.

(** The route callback started exactly one engine command [e]. *)
Definition started (e : Event) (w w1 : World) : Prop :=
  w1 = mkWorld (fs w) (bucket w) (clock w) (trace w ++ [(e, fs w)]).

(** ** Sample data for the concrete checks *)

Definition sample_client : SupabaseClient :=
  mkSupabase (λ _ _, None) (λ n, "https://cdn.example/videos/" +:+ n) None.

Definition refusing_client : SupabaseClient :=
  mkSupabase (λ _ _, Some (mkError "quota exceeded"))
             (λ n, "https://cdn.example/videos/" +:+ n) None.

Definition blank_url_client : SupabaseClient :=
  mkSupabase (λ _ _, None) (λ _, "") None.

Definition listing_client : SupabaseClient :=
  mkSupabase (λ _ _, None) (λ n, "https://cdn.example/videos/" +:+ n)
    (Some [mkFileObject "old.mp4" (1700000000000 - 25 * 60 * 60 * 1000);
           mkFileObject "new.mp4" (1700000000000 - 1 * 60 * 60 * 1000)]).

Definition sample_world : World :=
  mkWorld {[ "/tmp/abc" := "VID" ]} ∅ 1700000000000 [].

Definition sample_request : Request :=
  mkRequest (Some (mkFile "/tmp/abc")) None ∅.

Definition geometry_request : Request :=
  mkRequest (Some (mkFile "/tmp/abc")) None
    {[ "startTime" := JStr "3"; "duration" := JStr "";
       "w" := JStr "640"; "h" := JStr ""; "x" := JStr "10" ]}.

Definition busy_world : World :=
  mkWorld {[ "/tmp/abc" := "VID"; "/tmp/other" := "KEEP" ]} ∅ 1700000000000 [].

Definition stocked_world : World :=
  mkWorld {[ "/tmp/abc" := "VID" ]} {[ "trimmed_1700000000000.mp4" := "OLD" ]}
          1700000000000 [].

Definition run_ok : EngineRun := mkRun (Some "OUT") SigEnd.
Definition run_empty : EngineRun := mkRun (Some "") SigEnd.
Definition run_failed : EngineRun := mkRun None (SigError (mkError "boom")).

(** ** Three sentences of the specification, as they are worded *)

(** Every path of the Job is gone from the scratch store at the moment a
    response is sent. *)
Definition deleted_before_response (supabase : SupabaseClient)
    (path_resolve : string → string) (r : Route) (req : Request)
    (run : EngineRun) (w : World) : Prop :=
  ∀ ins s pl m q,
    job_inputs path_resolve r req = Some ins →
    (s, pl, m) ∈ responses (added w (serve supabase path_resolve r req run w).2) →
    q ∈ ins ++ [output_path r (clock w)] →
    present m q = false.

(** An uploaded artifact never has empty content. *)
Definition artifact_from_nonempty_output (supabase : SupabaseClient)
    (path_resolve : string → string) (r : Route) (req : Request)
    (run : EngineRun) (w : World) : Prop :=
  ∀ n c,
    (n, c) ∈ uploads (added w (serve supabase path_resolve r req run w).2) →
    c ≠ "".

(** An empty public URL is answered like an upload failure. *)
Definition blank_url_is_upload_failure (supabase : SupabaseClient)
    (path_resolve : string → string) (r : Route) (req : Request)
    (run : EngineRun) (w : World) : Prop :=
  publicUrl supabase (basename (output_path r (clock w))) = "" →
  ∀ s pl m,
    (s, pl, m) ∈ responses (added w (serve supabase path_resolve r req run w).2) →
    s = 500%Z.

(** A string without a slash. *)
Definition no_slash (s : string) : Prop :=
  Forall (λ c, is_slash c = false) (String.list_ascii_of_string s).

(** The paths handed to [fs.unlinkSync], in order. *)
Definition unlinked (t : list (Event * gmap string string)) : list string :=
  omap (λ '(e, _), match e with Unlink p => Some p | _ => None end) t.

(** ** The monad computes *)

Ltac js_unfold :=
  unfold mbind, Js_bind, mret, Js_ret, fmap, Js_fmap, throw, try_catch, finally,
    emit, set_fs, set_bucket, get_world, Date_now, res_json, res_status_json,
    console_error, console_log, existsSync in *.

Lemma present_truthy m p : present m p = true → truthy p = true.
Proof. unfold present. by intros [? _]%andb_prop. Qed.

Lemma cleanup_step_eq file w :
  cleanup_step file w
  = (Returned tt,
     mkWorld (if present (fs w) file then delete file (fs w) else fs w)
             (bucket w) (clock w)
             (trace w ++ if present (fs w) file then [(Unlink file, fs w)] else [])).
Proof.
  destruct w as [m b c t]. unfold cleanup_step, unlinkSync. js_unfold. simpl.
  destruct (present m file) eqn:Hp.
  - rewrite (present_truthy _ _ Hp). simpl. rewrite Hp. simpl. by rewrite Hp.
  - destruct (truthy file); simpl; rewrite ?Hp; simpl; by rewrite ?app_nil_r.
Qed.

Lemma forEach_cleanup files : ∀ w,
  forEach files cleanup_step w
  = (Returned tt,
     mkWorld (cleanup_fs files (fs w)) (bucket w) (clock w)
             (trace w ++ cleanup_trace files (fs w))).
Proof.
  induction files as [|p r IH]; intros w; simpl.
  - rewrite app_nil_r. by destruct w.
  - unfold mbind, Js_bind. rewrite cleanup_step_eq, IH. simpl.
    destruct (present (fs w) p); simpl; by rewrite <- ?app_assoc, ?app_nil_r.
Qed.

Lemma cleanupFiles_eq files w :
  cleanupFiles files w
  = (Returned tt,
     mkWorld (cleanup_fs files (fs w)) (bucket w) (clock w)
             (trace w ++ (CleanupFiles files, fs w) :: cleanup_trace files (fs w))).
Proof.
  unfold cleanupFiles.
  unfold mbind, Js_bind, emit. rewrite forEach_cleanup. simpl. by rewrite <- app_assoc.
Qed.

Lemma cleanup_fs_lookup files : ∀ m p,
  cleanup_fs files m !! p
  = if decide (p ∈ files ∧ truthy p = true) then None else m !! p.
Proof.
  induction files as [|q r IH]; intros m p; cbn [cleanup_fs].
  - rewrite decide_False; [done|]. intros [H _]. by apply elem_of_nil in H.
  - rewrite IH. unfold present.
    destruct (decide (p ∈ r ∧ truthy p = true)) as [[Hin Ht]|Hn].
    { rewrite decide_True; [done|]. split; [by right|done]. }
    destruct (decide (p = q)) as [->|Hne].
    + destruct (truthy q) eqn:Hq; cbn [andb].
      * rewrite decide_True by (split; [left|done]).
        case_bool_decide as Hs; [by rewrite lookup_delete_eq|].
        destruct (m !! q) eqn:E; [|done]. destruct Hs; eauto.
      * rewrite decide_False; [done|]. by intros [_ ?].
    + rewrite decide_False.
      * destruct (_ && _); [by rewrite lookup_delete_ne|done].
      * intros [[?|?]%elem_of_cons ?]; [done|]. by apply Hn.
Qed.
Lemma cleanup_trace_cleanup_calls files : ∀ m, cleanup_calls (cleanup_trace files m) = [].
Proof.
  induction files as [|p r IH]; intros m; simpl; [done|].
  destruct (present m p); simpl; apply IH.
Qed.

Lemma cleanup_trace_responses files : ∀ m, responses (cleanup_trace files m) = [].
Proof.
  induction files as [|p r IH]; intros m; simpl; [done|].
  destruct (present m p); simpl; apply IH.
Qed.

Lemma cleanup_trace_uploads files : ∀ m, uploads (cleanup_trace files m) = [].
Proof.
  induction files as [|p r IH]; intros m; simpl; [done|].
  destruct (present m p); simpl; apply IH.
Qed.

Lemma cleanup_trace_invocations files : ∀ m, invocations (cleanup_trace files m) = [].
Proof.
  induction files as [|p r IH]; intros m; simpl; [done|].
  destruct (present m p); simpl; apply IH.
Qed.

Lemma readFileSync_eq file w :
  truthy file = true →
  readFileSync file w
  = (match fs w !! file with
     | Some c => Returned c
     | None => Thrown (ENOENT_open file)
     end, w).
Proof.
  intros Ht. unfold readFileSync. js_unfold.
  destruct (fs w !! file); [by rewrite Ht|done].
Qed.

Section Pipeline.

Variable supabase : SupabaseClient.
Variable path_resolve : string → string.

Lemma uploadToSupabase_eq out w :
  truthy out = true →
  uploadToSupabase supabase out (basename out) w
  = match fs w !! out with
    | None => (Thrown (ENOENT_open out), w)
    | Some c =>
        let w1 := mkWorld (fs w) (bucket w) (clock w)
                    (trace w ++ [(StorageUpload (basename out) c "video/mp4" true, fs w)]) in
        match upload_error supabase (basename out) c with
        | Some e => (Thrown e, w1)
        | None => (Returned (publicUrl supabase (basename out)),
                   mkWorld (fs w) (<[basename out := c]> (bucket w)) (clock w) (trace w1))
        end
    end.
Proof.
  intros Ht. unfold uploadToSupabase, storage_upload.
  unfold mbind at 1. unfold Js_bind. rewrite readFileSync_eq by done.
  destruct (fs w !! out) as [c|]; [|done].
  js_unfold. simpl. by destruct (upload_error supabase (basename out) c).
Qed.

Ltac observe :=
  unfold cleanup_calls, responses, uploads, invocations;
  rewrite ?omap_app; simpl;
  fold cleanup_calls responses uploads invocations;
  rewrite ?cleanup_trace_cleanup_calls, ?cleanup_trace_responses,
    ?cleanup_trace_uploads, ?cleanup_trace_invocations.

Ltac close_outcome :=
  rewrite cleanupFiles_eq; simpl;
  eexists _, _; (split; [reflexivity|]); simpl; split;
  [ (split; [by rewrite <- !app_assoc|]);
    repeat (split; [done || (observe; done)|]);
    observe; done
  | observe; done ].

Ltac fire_listener lv sg w out Ht :=
  unfold engine_finish, job_outcome, after_engine; simpl;
  set (m1 := match lv with Some c => <[out:=c]> (fs w) | None => fs w end);
  set (t0 := trace w ++ [_]);
  let Hstart := fresh "Hstart" in
  assert (∀ k : Js unit,
    (w0 ← get_world; match lv with
                     | Some content => set_fs (<[out:=content]> (fs w0))
                     | None => mret tt
                     end ;; k)
      (mkWorld (fs w) (bucket w) (clock w) t0)
    = k (mkWorld m1 (bucket w) (clock w) t0)) as Hstart
    by (intros k; js_unfold; simpl; subst m1; by destruct lv);
  rewrite Hstart; clear Hstart;
  destruct sg as [|e];
  [ unfold finally, try_catch; unfold mbind at 1; unfold Js_bind;
    rewrite uploadToSupabase_eq by done; simpl;
    destruct (m1 !! out) as [c|] eqn:Hout;
    [ simpl; destruct (upload_error supabase (basename out) c) as [e|] eqn:Hup;
      js_unfold; simpl; close_outcome
    | js_unfold; simpl; close_outcome ]
  | js_unfold; simpl; close_outcome ].

Lemma processAndUpload_outcome cmd out ins run w :
  truthy out = true →
  ∃ p w1, processAndUpload supabase cmd out ins w = (Returned p, w1)
    ∧ w1 = mkWorld (fs w) (bucket w) (clock w)
             (trace w ++ [(FfmpegSave (outputOptions ["-threads 1"; "-preset ultrafast"] cmd) out, fs w)])
    ∧ ∃ w' t, engine_finish run p w1 = (Returned tt, w')
        ∧ job_outcome supabase "Processing succeeded, but cloud upload failed."
            "Video processing failed." ins out run w1 w' t
        ∧ invocations t = [].
Proof.
  intros Ht. eexists _, _. split; [reflexivity|]. split; [reflexivity|].
  destruct run as [lv sg]. fire_listener lv sg w out Ht.
Qed.

Lemma truthy_output_path r now : truthy (output_path r now) = true.
Proof. done. Qed.

Lemma merge_outcome req l run w :
  files req = Some (FilesArray l) → length l = 2 →
  let out := output_path Merge (clock w) in
  ∃ p w1, merge supabase req w = (Returned (Some p), w1)
    ∧ w1 = mkWorld (fs w) (bucket w) (clock w)
             (trace w ++ [(FfmpegMergeToFile
                             (outputOptions ["-threads 1"; "-preset ultrafast"]
                                (foldl (λ c p, input p c) (ffmpeg []) (path <$> l)))
                             out "/tmp/", fs w)])
    ∧ ∃ w' t, engine_finish run p w1 = (Returned tt, w')
        ∧ job_outcome supabase "Cloud upload failed." "Merge failed."
            (path <$> l) out run w1 w' t
        ∧ invocations t = [].
Proof.
  intros Hf Hl out. unfold merge. rewrite Hf. rewrite decide_True by done.
  pose proof (truthy_output_path Merge (clock w)) as Ht.
  unfold mbind at 1. unfold Js_bind, Date_now. fold out in Ht |- *. clearbody out.
  eexists _, _. split; [reflexivity|]. split; [reflexivity|].
  destruct run as [lv sg]. fire_listener lv sg w out Ht.
Qed.


Lemma start_event_silent e m cmd out :
  invocations [(e, m)] = [(cmd, out)] →
  cleanup_calls [(e, m)] = [] ∧ responses [(e, m)] = [] ∧ uploads [(e, m)] = [].
Proof. by destruct e. Qed.

Lemma omap_head {A B} (f : A → option B) x l :
  omap f (x :: l) = omap f [x] ++ omap f l.
Proof. simpl. by destruct (f x). Qed.

Lemma job_outcome_started um tm ins out run e cmd o w w1 w' t :
  started e w w1 → invocations [(e, fs w)] = [(cmd, o)] →
  job_outcome supabase um tm ins out run w1 w' t →
  job_outcome supabase um tm ins out run w w' ((e, fs w) :: t).
Proof.
  intros -> He. apply start_event_silent in He as (Hc & Hr & Hu).
  unfold job_outcome, cleanup_calls, responses, uploads in *.
  rewrite !(omap_head _ (e, fs w) t), Hc, Hr, Hu.
  cbn [fs bucket clock trace app]. by rewrite <- app_assoc.
Qed.

Ltac via_processAndUpload R w :=
  unfold mbind, Js_bind, Date_now, fmap, Js_fmap, mret, Js_ret; cbn beta iota;
  edestruct processAndUpload_outcome as (p & w1 & Hp & Hw1 & w' & t & Hfin & Hout & Hinv);
    [apply (truthy_output_path R (clock w))|];
  rewrite Hp, Hfin;
  eexists _, _, _; (split; [reflexivity|]);
  (split; [|split; [|split; [|eapply job_outcome_started; [exact Hw1|reflexivity|exact Hout]]]]);
  [ simpl; by rewrite Hinv | set_solver | set_solver ].

Lemma serve_outcome r req ins run w :
  job_inputs path_resolve r req = Some ins →
  let out := output_path r (clock w) in
  ∃ cmd w' t,
    serve supabase path_resolve r req run w = (Returned tt, w')
    ∧ invocations t = [(cmd, out)]
    ∧ "-threads 1" ∈ cmd_outputOptions cmd
    ∧ "-preset ultrafast" ∈ cmd_outputOptions cmd
    ∧ job_outcome supabase (upload_failed_error r) (transform_failed_error r)
        ins out run w w' t.
Proof.
  intros Hin out. unfold serve.
  destruct r; simpl in Hin; unfold handler.
  - destruct (file req) as [f|] eqn:Hf; [|done]. simplify_eq/=.
    unfold trim. rewrite Hf. via_processAndUpload Trim w.
  - destruct (file req) as [f|] eqn:Hf; [|done].
    destruct (crop_geometry (body req)) as [flt|] eqn:Hg; [|done]. simplify_eq/=.
    unfold crop. rewrite Hf. unfold mbind at 1. unfold Js_bind, Date_now.
    cbn beta iota zeta. fold (crop_geometry (body req)). rewrite Hg.
    via_processAndUpload Crop w.
  - destruct (files req) as [[m|?]|] eqn:Hf; [|done..].
    destruct (m !! "video") as [[|v ?]|] eqn:Hv; [done| |done].
    destruct (m !! "audio") as [[|a ?]|] eqn:Ha; [done| |done].
    simplify_eq/=. unfold add_voice, files_field. rewrite Hf.
    unfold mbind at 1. unfold Js_bind, mret, Js_ret. rewrite Hv.
    unfold mbind at 1. unfold Js_bind, mret, Js_ret. rewrite Ha.
    unfold first_path. via_processAndUpload AddVoice w.
  - destruct (files req) as [[m|?]|] eqn:Hf; [|done..].
    destruct (m !! "video") as [[|v ?]|] eqn:Hv; [done| |done].
    destruct (m !! "subtitle") as [[|a ?]|] eqn:Ha; [done| |done].
    simplify_eq/=. unfold add_caption, files_field. rewrite Hf.
    unfold mbind at 1. unfold Js_bind, mret, Js_ret. rewrite Hv.
    unfold mbind at 1. unfold Js_bind, mret, Js_ret. rewrite Ha.
    unfold first_path. via_processAndUpload AddCaption w.
  - destruct (files req) as [[?|l]|] eqn:Hf; [done| |done].
    destruct (decide (length l = 2)) as [Hl|]; [|done]. simplify_eq/=.
    destruct (merge_outcome req l run w Hf Hl)
      as (p & w1 & Hp & Hw1 & w' & t & Hfin & Hout & Hinv).
    unfold mbind, Js_bind. rewrite Hp, Hfin.
    eexists _, _, _. split; [reflexivity|].
    split; [|split; [|split; [|eapply job_outcome_started; [exact Hw1|reflexivity|exact Hout]]]];
      [ simpl; by rewrite Hinv | set_solver | set_solver ].
Qed.

End Pipeline.

(** ** cleanupFiles *)

Lemma cleanup_fs_present files m p :
  p ∈ files → present (cleanup_fs files m) p = false.
Proof.
  intros Hin. unfold present. rewrite cleanup_fs_lookup.
  destruct (truthy p) eqn:Ht; [|done].
  rewrite decide_True by done. simpl.
  first [done | apply bool_decide_eq_false; by intros [? ?]].
Qed.

Lemma cleanup_absent files : ∀ m,
  (∀ p, p ∈ files → present m p = false) →
  cleanup_fs files m = m ∧ cleanup_trace files m = [].
Proof.
  induction files as [|q r IH]; intros m Habs; simpl; [done|].
  rewrite (Habs q) by left. apply IH. intros p Hp. apply Habs. by right.
Qed.

(** C3. For every list of paths and every world, [cleanupFiles] returns
    without raising; afterwards no path of the list exists; a path outside
    the list, or one of the list that did not exist, is left as it was; and
    a second run on the same list changes nothing in the store and unlinks
    nothing. *)
Theorem cleanupFiles_total_idempotent (files : list string) (w : World) :
  ∃ w', cleanupFiles files w = (Returned tt, w')
    ∧ (∀ p, p ∈ files → present (fs w') p = false)
    ∧ (∀ p, p ∉ files → fs w' !! p = fs w !! p)
    ∧ (∀ p, present (fs w) p = false → fs w' !! p = fs w !! p)
    ∧ bucket w' = bucket w
    ∧ cleanupFiles files w'
      = (Returned tt,
         mkWorld (fs w') (bucket w') (clock w')
                 (trace w' ++ [(CleanupFiles files, fs w')])).
Proof.
  eexists. split; [apply cleanupFiles_eq|]. simpl.
  split; [intros p Hp; by apply cleanup_fs_present|].
  split.
  { intros p Hp. rewrite cleanup_fs_lookup. rewrite decide_False; [done|]. by intros [? _]. }
  split.
  { intros p Hp. rewrite cleanup_fs_lookup. case_decide as H; [|done].
    destruct H as [_ Ht]. unfold present in Hp. rewrite Ht in Hp. simpl in Hp.
    apply bool_decide_eq_false in Hp. destruct (fs w !! p) eqn:E; [|done].
    destruct Hp. eauto. }
  split; [done|].
  rewrite cleanupFiles_eq. simpl.
  destruct (cleanup_absent files (cleanup_fs files (fs w))) as [-> ->]; [|done].
  intros p Hp. by apply cleanup_fs_present.
Qed.

(** ** Base names *)

Lemma list_ascii_of_string_app (a b : string) :
  String.list_ascii_of_string (a +:+ b)
  = String.list_ascii_of_string a ++ String.list_ascii_of_string b.
Proof. induction a as [|c a IH]; simpl; [done|]. by rewrite IH. Qed.

Lemma until_slash_app (l r : list ascii) :
  Forall (λ c, is_slash c = false) l →
  until_slash (l ++ "/"%char :: r) = l.
Proof.
  induction 1 as [|c l Hc _ IH]; simpl; [done|]. by rewrite Hc, IH.
Qed.

Lemma pretty_N_char_no_slash x : is_slash (pretty_N_char x) = false.
Proof. unfold pretty_N_char. by repeat case_match. Qed.

Lemma pretty_N_go_no_slash x : ∀ s,
  no_slash s → no_slash (pretty_N_go x s).
Proof.
  induction (N.lt_wf_0 x) as [x _ IH]; intros s Hs.
  destruct (decide (x = 0)%N) as [->|Hx]; [by rewrite pretty_N_go_0|].
  rewrite pretty_N_go_step by lia. apply IH.
  - apply N.div_lt; lia.
  - constructor; [apply pretty_N_char_no_slash|done].
Qed.

Lemma pretty_N_no_slash (x : N) : no_slash (pretty x).
Proof.
  unfold pretty, pretty_N. case_decide.
  - by repeat constructor.
  - apply pretty_N_go_no_slash. constructor.
Qed.

Lemma pretty_Z_no_slash (z : Z) : no_slash (pretty z).
Proof.
  destruct z as [|p|p]; unfold pretty, pretty_Z.
  - by repeat constructor.
  - apply (pretty_N_no_slash (N.pos p)).
  - constructor; [done|]. apply (pretty_N_no_slash (N.pos p)).
Qed.

Lemma no_slash_app a b : no_slash a → no_slash b → no_slash (a +:+ b).
Proof.
  unfold no_slash. rewrite list_ascii_of_string_app. apply Forall_app_2.
Qed.

Lemma basename_dir_file (dir name : string) :
  no_slash name → name ≠ "" →
  basename (dir +:+ "/" +:+ name) = name.
Proof.
  intros Hn Hne. unfold basename.
  rewrite !list_ascii_of_string_app. simpl.
  replace (String.list_ascii_of_string dir ++ "/"%char :: String.list_ascii_of_string name)
    with ((String.list_ascii_of_string dir ++ ["/"%char])
            ++ String.list_ascii_of_string name) by by rewrite <- app_assoc.
  rewrite rev_app_distr, (rev_app_distr _ ["/"%char]). simpl.
  assert (Forall (λ c, is_slash c = false) (rev (String.list_ascii_of_string name))) as Hrev
    by by apply Forall_rev.
  destruct (rev (String.list_ascii_of_string name)) as [|c l] eqn:Hl.
  - destruct Hne. rewrite <- (String.string_of_list_ascii_of_string name).
    by rewrite <- (rev_involutive (String.list_ascii_of_string name)), Hl.
  - simpl. rewrite (Forall_inv Hrev).
    change (c :: l ++ "/"%char :: rev (String.list_ascii_of_string dir))
      with ((c :: l) ++ "/"%char :: rev (String.list_ascii_of_string dir)).
    rewrite until_slash_app by done.
    rewrite <- Hl, rev_involutive. apply String.string_of_list_ascii_of_string.
Qed.

Lemma basename_output_path r now :
  basename (output_path r now) = prefix r +:+ "_" +:+ pretty now +:+ ".mp4".
Proof.
  apply (basename_dir_file "/tmp").
  - apply no_slash_app; [destruct r; by repeat constructor|].
    apply (no_slash_app "_"); [by repeat constructor|].
    apply no_slash_app; [apply pretty_Z_no_slash|by repeat constructor].
  - by destruct r.
Qed.

(** ** The job lifecycle *)

Section Lifecycle.

Variable supabase : SupabaseClient.
Variable path_resolve : string → string.

(** C1, as amended. For every Job that reaches Transforming, on each of the
    three terminal paths the run returns, [cleanupFiles] is called exactly
    once, with all input paths followed by the output path, and none of
    these paths exists when the listener has returned; exactly one response
    is sent.  After a transform failure the paths are already gone when the
    response is sent; on the two upload branches the response is sent with
    the store as the engine left it, before the cleanup of the [finally]
    block. *)
Theorem cleanup_once_on_every_terminal_path r req ins run w :
  job_inputs path_resolve r req = Some ins →
  let out := output_path r (clock w) in
  let paths := ins ++ [out] in
  ∃ w' t s pl m,
    serve supabase path_resolve r req run w = (Returned tt, w')
    ∧ trace w' = trace w ++ t
    ∧ cleanup_calls t = [paths]
    ∧ (∀ q, q ∈ paths → present (fs w') q = false)
    ∧ responses t = [(s, pl, m)]
    ∧ match signal run with
      | SigError _ => ∀ q, q ∈ paths → present m q = false
      | SigEnd => m = after_engine run out (fs w)
      end.
Proof.
  intros Hin out paths.
  destruct (serve_outcome supabase path_resolve r req ins run w Hin)
    as (cmd & w' & t & Hs & _ & _ & _ & Ht & _ & Hfs & Hcc & Hsig).
  fold out paths in Hfs, Hcc, Hsig.
  assert (∀ q, q ∈ paths → present (fs w') q = false) as Hgone.
  { intros q Hq. rewrite Hfs. by apply cleanup_fs_present. }
  destruct (signal run) as [|e].
  - destruct (after_engine run out (fs w) !! out) as [c|].
    + destruct Hsig as [_ Hsig].
      destruct (upload_error supabase (basename out) c) as [e|];
        destruct Hsig as [Hr _]; by eexists w', t, _, _, _.
    + destruct Hsig as [Hr _]. by eexists w', t, _, _, _.
  - destruct Hsig as [Hr _]. eexists w', t, _, _, _.
    repeat (split; [done|]). intros q Hq. by apply cleanup_fs_present.
Qed.

(** C2, as amended. An upload is attempted only after the end signal, under
    the base name of the output path and with the content the output file
    has at that moment; after the error signal nothing is uploaded and the
    bucket is unchanged; and the bucket only ever changes at that name, to
    that content.  Whether the content is empty is not looked at. *)
Theorem upload_only_after_end r req ins run w :
  job_inputs path_resolve r req = Some ins →
  let out := output_path r (clock w) in
  let m1 := after_engine run out (fs w) in
  ∃ w' t,
    serve supabase path_resolve r req run w = (Returned tt, w')
    ∧ trace w' = trace w ++ t
    ∧ (∀ n c, (n, c) ∈ uploads t →
         signal run = SigEnd ∧ n = basename out ∧ m1 !! out = Some c)
    ∧ (∀ e, signal run = SigError e → uploads t = [] ∧ bucket w' = bucket w)
    ∧ (∀ n, bucket w' !! n ≠ bucket w !! n →
         signal run = SigEnd ∧ n = basename out ∧ bucket w' !! n = m1 !! out).
Proof.
  intros Hin out m1.
  destruct (serve_outcome supabase path_resolve r req ins run w Hin)
    as (cmd & w' & t & Hs & _ & _ & _ & Ht & _ & _ & _ & Hsig).
  fold out m1 in Hsig. exists w', t. split; [done|]. split; [done|].
  destruct (signal run) as [|e].
  - destruct (m1 !! out) as [c|] eqn:Hout.
    + destruct Hsig as [Hu Hsig]. rewrite Hu.
      split; [intros n c' [=-> ->]%list_elem_of_singleton; done|].
      split; [done|].
      destruct (upload_error supabase (basename out) c) as [e|];
        destruct Hsig as [_ Hb]; rewrite Hb; [done|].
      intros n Hn. destruct (decide (basename out = n)) as [<-|Hne].
      * by rewrite lookup_insert_eq.
      * by rewrite lookup_insert_ne in Hn.
    + destruct Hsig as (_ & -> & ->).
      split; [by intros n c ?%elem_of_nil|]. done.
  - destruct Hsig as (_ & -> & ->).
    split; [by intros n c ?%elem_of_nil|]. split; [done|]. done.
Qed.


(** C6. For each of the five operations, the one command a valid request
    starts carries both resource options, [-threads 1] and
    [-preset ultrafast]. *)
Theorem resource_options_on_every_invocation r req ins run w :
  job_inputs path_resolve r req = Some ins →
  ∃ cmd w' t,
    serve supabase path_resolve r req run w = (Returned tt, w')
    ∧ trace w' = trace w ++ t
    ∧ invocations t = [(cmd, output_path r (clock w))]
    ∧ "-threads 1" ∈ cmd_outputOptions cmd
    ∧ "-preset ultrafast" ∈ cmd_outputOptions cmd.
Proof.
  intros Hin.
  destruct (serve_outcome supabase path_resolve r req ins run w Hin)
    as (cmd & w' & t & Hs & Hinv & H1 & H2 & Ht & _).
  by exists cmd, w', t.
Qed.

Lemma failure_errors_differ r : upload_failed_error r ≠ transform_failed_error r.
Proof. by destruct r. Qed.

(** C7. For one and the same Job, the response after a transform failure
    and the response after an upload failure (the output is missing or the
    storage service refuses it) both have status 500 and a JSON payload
    whose [details] is the message of the underlying error, and the two
    payloads differ, whatever the two errors are. *)
Theorem upload_failure_distinct_from_transform_failure
    r req ins w run_t run_u e_t e_u :
  job_inputs path_resolve r req = Some ins →
  let out := output_path r (clock w) in
  signal run_t = SigError e_t →
  signal run_u = SigEnd →
  upload_failure supabase (after_engine run_u out (fs w)) out = Some e_u →
  ∃ w_t t_t m_t p_t w_u t_u m_u p_u,
    serve supabase path_resolve r req run_t w = (Returned tt, w_t)
    ∧ trace w_t = trace w ++ t_t
    ∧ responses t_t = [(500%Z, p_t, m_t)]
    ∧ serve supabase path_resolve r req run_u w = (Returned tt, w_u)
    ∧ trace w_u = trace w ++ t_u
    ∧ responses t_u = [(500%Z, p_u, m_u)]
    ∧ ("details", JsonString (message e_t)) ∈ p_t
    ∧ ("details", JsonString (message e_u)) ∈ p_u
    ∧ p_t ≠ p_u.
Proof.
  intros Hin out Hst Hsu Hfail.
  destruct (serve_outcome supabase path_resolve r req ins run_t w Hin)
    as (? & w_t & t_t & Hs_t & _ & _ & _ & Ht_t & _ & _ & _ & Hsig_t).
  destruct (serve_outcome supabase path_resolve r req ins run_u w Hin)
    as (? & w_u & t_u & Hs_u & _ & _ & _ & Ht_u & _ & _ & _ & Hsig_u).
  fold out in Hsig_t, Hsig_u. rewrite Hst in Hsig_t. rewrite Hsu in Hsig_u.
  destruct Hsig_t as (Hr_t & _).
  assert (responses t_u
          = [(500%Z, error_payload (upload_failed_error r) (message e_u),
              after_engine run_u out (fs w))]) as Hr_u.
  { unfold upload_failure in Hfail.
    destruct (after_engine run_u out (fs w) !! out) as [c|].
    - destruct Hsig_u as [_ Hsig_u]. rewrite Hfail in Hsig_u. by destruct Hsig_u.
    - destruct Hsig_u as [Hr _]. by simplify_eq. }
  eexists w_t, t_t, _, _, w_u, t_u, _, _.
  repeat (split; [done|]).
  split; [unfold error_payload; set_solver|].
  split; [unfold error_payload; set_solver|].
  intros [=Heq _]. by apply (failure_errors_differ r).
Qed.

(** C8, as amended. When the transform ended, the output file is there and
    the storage service accepts the upload, the response is 200 with
    [downloadUrl] set to whatever [getPublicUrl] resolved for the artifact
    name, and the artifact is in the bucket; the locator is not examined. *)
Theorem success_returns_resolved_url r req ins run w c :
  job_inputs path_resolve r req = Some ins →
  let out := output_path r (clock w) in
  signal run = SigEnd →
  after_engine run out (fs w) !! out = Some c →
  upload_error supabase (basename out) c = None →
  ∃ w' t m,
    serve supabase path_resolve r req run w = (Returned tt, w')
    ∧ trace w' = trace w ++ t
    ∧ uploads t = [(basename out, c)]
    ∧ responses t
      = [(200%Z, success_payload (publicUrl supabase (basename out)), m)]
    ∧ bucket w' !! basename out = Some c.
Proof.
  intros Hin out Hsig Hout Hup.
  destruct (serve_outcome supabase path_resolve r req ins run w Hin)
    as (? & w' & t & Hs & _ & _ & _ & Ht & _ & _ & _ & Hfin).
  fold out in Hfin. rewrite Hsig, Hout, Hup in Hfin.
  destruct Hfin as (Hu & Hr & Hb).
  eexists w', t, _. repeat (split; [done|]).
  by rewrite Hb, lookup_insert_eq.
Qed.

(** C10. The output path of a Job is [/tmp/<prefix>_<t>.mp4] with [t] the
    clock value read by the route callback; its base name is
    [<prefix>_<t>.mp4], which ends in [.mp4]; every upload of the Job uses
    that name, and an upload does happen when the transform ends with the
    output in place; a second Job of the same operation whose callback
    reads the same clock value starts its command on the same output path
    and uploads under the same name. *)
Theorem artifact_name_is_output_basename r req ins run w :
  job_inputs path_resolve r req = Some ins →
  let out := output_path r (clock w) in
  let artifact := prefix r +:+ "_" +:+ pretty (clock w) +:+ ".mp4" in
  out = "/tmp/" +:+ artifact
  ∧ basename out = artifact
  ∧ (∃ stem, artifact = stem +:+ ".mp4")
  ∧ (∃ w' t cmd,
       serve supabase path_resolve r req run w = (Returned tt, w')
       ∧ trace w' = trace w ++ t
       ∧ invocations t = [(cmd, out)]
       ∧ (∀ n c, (n, c) ∈ uploads t → n = artifact)
       ∧ (∀ c, signal run = SigEnd → after_engine run out (fs w) !! out = Some c →
            uploads t = [(artifact, c)]))
  ∧ (∀ req2 ins2 run2 w2,
       job_inputs path_resolve r req2 = Some ins2 → clock w2 = clock w →
       ∃ w2' t2 cmd2,
         serve supabase path_resolve r req2 run2 w2 = (Returned tt, w2')
         ∧ trace w2' = trace w2 ++ t2
         ∧ invocations t2 = [(cmd2, out)]
         ∧ (∀ n c, (n, c) ∈ uploads t2 → n = artifact)).
Proof.
  intros Hin out artifact.
  assert (∀ rq i rn w0, job_inputs path_resolve r rq = Some i → clock w0 = clock w →
    ∃ w' t cmd,
       serve supabase path_resolve r rq rn w0 = (Returned tt, w')
       ∧ trace w' = trace w0 ++ t
       ∧ invocations t = [(cmd, out)]
       ∧ (∀ n c, (n, c) ∈ uploads t → n = artifact)
       ∧ (∀ c, signal rn = SigEnd → after_engine rn out (fs w0) !! out = Some c →
            uploads t = [(artifact, c)])) as Hjob.
  { intros rq i rn w0 Hi Hck.
    destruct (serve_outcome supabase path_resolve r rq i rn w0 Hi)
      as (cmd & w' & t & Hs & Hinv & _ & _ & Ht & _ & _ & _ & Hsig).
    rewrite Hck in Hinv, Hsig.
    rewrite (basename_output_path r (clock w)) in Hsig.
    fold artifact out in Hinv, Hsig.
    exists w', t, cmd. repeat (split; [done|]).
    destruct (signal rn) as [|e].
    - destruct (after_engine rn out (fs w0) !! out) as [c|].
      + destruct Hsig as [-> _].
        split; [by intros n c' [=-> ->]%list_elem_of_singleton|].
        by intros c' _ [= ->].
      + destruct Hsig as (_ & -> & _). split; [by intros n c ?%elem_of_nil|done].
    - destruct Hsig as (_ & -> & _). split; [by intros n c ?%elem_of_nil|done]. }
  split; [done|]. split; [apply basename_output_path|].
  split; [exists (prefix r +:+ "_" +:+ pretty (clock w)); by destruct r|].
  split.
  - destruct (Hjob req ins run w Hin eq_refl) as (w' & t & cmd & ?). by exists w', t, cmd.
  - intros req2 ins2 run2 w2 Hin2 Hck.
    destruct (Hjob req2 ins2 run2 w2 Hin2 Hck) as (w' & t & cmd & ? & ? & ? & ? & _).
    by exists w', t, cmd.
Qed.

End Lifecycle.

(** ** Validation and parameters *)

(** What does hold of the validation: when the required files are missing
    (on /crop, when the video file is) and [req.files] is an object whose
    fields hold no empty array, the route answers 400 with an [error]
    message and starts nothing. *)
Lemma missing_files_bad_request supabase path_resolve r req w :
  job_inputs path_resolve r req = None →
  (r = Crop → file req = None) →
  (r = AddVoice ∨ r = AddCaption →
     ∃ m, files req = Some (FilesByField m) ∧ ∀ k, m !! k ≠ Some []) →
  ∃ msg,
    handler supabase path_resolve r req w
    = (Returned None,
       mkWorld (fs w) (bucket w) (clock w)
               (trace w ++ [(Respond 400 [("error", JsonString msg)], fs w)])).
Proof.
  intros Hin Hcrop Hshape. destruct r; simpl in *.
  - unfold trim. destruct (file req); [done|]. by eexists.
  - unfold crop. rewrite (Hcrop eq_refl). by eexists.
  - destruct Hshape as (m & Hf & Hm); [by left|].
    unfold add_voice, files_field. rewrite Hf in *.
    unfold mbind at 1. unfold Js_bind, mret, Js_ret.
    destruct (m !! "video") as [[|v ?]|] eqn:Hv; [by destruct (Hm "video")| |by eexists].
    unfold mbind at 1. unfold Js_bind, mret, Js_ret.
    destruct (m !! "audio") as [[|a ?]|] eqn:Ha; [by destruct (Hm "audio")|done|by eexists].
  - destruct Hshape as (m & Hf & Hm); [by right|].
    unfold add_caption, files_field. rewrite Hf in *.
    unfold mbind at 1. unfold Js_bind, mret, Js_ret.
    destruct (m !! "video") as [[|v ?]|] eqn:Hv; [by destruct (Hm "video")| |by eexists].
    unfold mbind at 1. unfold Js_bind, mret, Js_ret.
    destruct (m !! "subtitle") as [[|a ?]|] eqn:Ha; [by destruct (Hm "subtitle")|done|by eexists].
  - unfold merge. destruct (files req) as [[?|l]|]; [by eexists| |by eexists].
    destruct (decide (length l = 2)); [done|by eexists].
Qed.

(** C4, at the failing input. A request to /add-voice or /add-caption that
    multer left without [req.files] has its required files missing, and
    the route callback raises a TypeError on [req.files.video] instead of
    answering 400: it sends no response at all. *)
Theorem fields_routes_raise_without_files supabase path_resolve b w :
  handler supabase path_resolve AddVoice (mkRequest None None b) w
  = (Thrown (TypeError_undefined "video"), w)
  ∧ handler supabase path_resolve AddCaption (mkRequest None None b) w
    = (Thrown (TypeError_undefined "video"), w)
  ∧ job_inputs path_resolve AddVoice (mkRequest None None b) = None
  ∧ job_inputs path_resolve AddCaption (mkRequest None None b) = None
  ∧ ∃ msg, handler supabase path_resolve Merge (mkRequest None None b) w
           = (Returned None,
              mkWorld (fs w) (bucket w) (clock w)
                      (trace w ++ [(Respond 400 [("error", JsonString msg)], fs w)])).
Proof. repeat split. by eexists. Qed.

(** C5. With a video file present, /trim starts its command with the
    [startTime] and [duration] fields of the body exactly as they are, and
    with 0 and 5 only where the key is absent.  /crop, whose geometry
    fields [w], [h], [x], [y] are each absent or a string, starts its command
    with the filter [crop=w:h:x:y] made of these very strings, and of 1080,
    1920, 0, 0 only where the key is absent.  A field that is present and
    empty is passed on as the empty string; nothing is range-checked. *)
Theorem trim_crop_defaults_only_when_absent supabase req f w :
  file req = Some f →
  (∃ p cmd,
     trim supabase req w
     = (Returned (Some p),
        mkWorld (fs w) (bucket w) (clock w)
                (trace w ++ [(FfmpegSave cmd (output_path Trim (clock w)), fs w)]))
     ∧ cmd_startTime cmd = Some (default (JNum 0) (body req !! "startTime"))
     ∧ cmd_duration cmd = Some (default (JNum 5) (body req !! "duration"))
     ∧ (body req !! "startTime" = Some (JStr "") → cmd_startTime cmd = Some (JStr ""))
     ∧ (body req !! "duration" = Some (JStr "") → cmd_duration cmd = Some (JStr "")))
  ∧ (∀ ow oh ox oy : option string,
       body req !! "w" = JStr <$> ow →
       body req !! "h" = JStr <$> oh →
       body req !! "x" = JStr <$> ox →
       body req !! "y" = JStr <$> oy →
       ∃ p cmd,
         crop supabase req w
         = (Returned (Some p),
            mkWorld (fs w) (bucket w) (clock w)
                    (trace w ++ [(FfmpegSave cmd (output_path Crop (clock w)), fs w)]))
         ∧ cmd_videoFilters cmd
           = ["crop=" +:+ default "1080" ow +:+ ":" +:+ default "1920" oh
                +:+ ":" +:+ default "0" ox +:+ ":" +:+ default "0" oy]
         ∧ (body req = ∅ → cmd_videoFilters cmd = ["crop=1080:1920:0:0"])).
Proof.
  intros Hf. split.
  - unfold trim. rewrite Hf. eexists _, _. split; [reflexivity|].
    unfold field_or. simpl.
    split; [by destruct (body req !! "startTime")|].
    split; [by destruct (body req !! "duration")|].
    split; by intros ->.
  - intros ow oh ox oy Hw Hh Hx Hy.
    assert (crop_geometry (body req)
            = Some ("crop=" +:+ default "1080" ow +:+ ":" +:+ default "1920" oh
                      +:+ ":" +:+ default "0" ox +:+ ":" +:+ default "0" oy)) as Hg.
    { unfold crop_geometry, field_or. rewrite Hw, Hh, Hx, Hy.
      by destruct ow, oh, ox, oy. }
    unfold crop. rewrite Hf. unfold mbind at 1. unfold Js_bind, Date_now.
    cbn beta iota zeta. fold (crop_geometry (body req)). rewrite Hg.
    eexists _, _. split; [reflexivity|]. split; [reflexivity|].
    intros Hnone. rewrite Hnone in Hw, Hh, Hx, Hy. rewrite lookup_empty in Hw, Hh, Hx, Hy.
    by destruct ow, oh, ox, oy.
Qed.

(** ** The retention sweep *)

(** C9. When the listing succeeds, the sweep asks the storage service to
    remove exactly the names of the listed objects whose age, the clock
    minus the creation time, exceeds 24 hours, in one call, and issues no
    removal when there is none; an object created 25 hours ago is among
    them, one created 1 hour ago is not. *)
Theorem sweep_removes_older_than_a_day supabase files w :
  list_data supabase = Some files →
  let expired := filter (λ f, (clock w - created_at f > 24 * 60 * 60 * 1000)%Z) files in
  ∃ w' t,
    sweep supabase w = (Returned tt, w')
    ∧ trace w' = trace w ++ t
    ∧ removals t = (if decide (expired = []) then [] else [name <$> expired])
    ∧ fs w' = fs w
    ∧ (∀ f, f ∈ files → created_at f = (clock w - 25 * 60 * 60 * 1000)%Z → f ∈ expired)
    ∧ (∀ f, created_at f = (clock w - 1 * 60 * 60 * 1000)%Z → f ∉ expired).
Proof.
  intros Hl expired. unfold sweep. rewrite Hl.
  assert (filter (λ f, (created_at f < clock w - 24 * 60 * 60 * 1000)%Z) files = expired) as Hsame.
  { apply list_filter_iff. intros f. lia. }
  js_unfold. simpl. rewrite Hsame.
  destruct expired as [|f0 l] eqn:He.
  - simpl. eexists _, _. split; [reflexivity|]. simpl. split; [reflexivity|].
    split; [done|]. split; [done|].
    split; intros f; rewrite <- He; unfold expired; rewrite list_elem_of_filter; [|lia].
    intros ? ->. split; [lia|done].
  - simpl. unfold storage_remove. js_unfold. simpl.
    eexists _, _. split; [reflexivity|]. simpl. rewrite <- app_assoc.
    split; [reflexivity|]. split; [done|]. split; [done|].
    split; intros f; rewrite <- He; unfold expired; rewrite list_elem_of_filter; [|lia].
    intros ? ->. split; [lia|done].
Qed.

(** ** Concrete runs *)

Example trim_success_run :
  (serve sample_client id Trim sample_request run_ok sample_world).1 = Returned tt
  ∧ fst <$> trace (serve sample_client id Trim sample_request run_ok sample_world).2
    = [FfmpegSave
         (mkCommand ["/tmp/abc"] (Some (JNum 0)) (Some (JNum 5)) []
            ["-c copy"; "-threads 1"; "-preset ultrafast"])
         "/tmp/trimmed_1700000000000.mp4";
       StorageUpload "trimmed_1700000000000.mp4" "OUT" "video/mp4" true;
       Respond 200
         [("success", JsonBool true);
          ("downloadUrl",
           JsonString "https://cdn.example/videos/trimmed_1700000000000.mp4")];
       CleanupFiles ["/tmp/abc"; "/tmp/trimmed_1700000000000.mp4"];
       Unlink "/tmp/abc";
       Unlink "/tmp/trimmed_1700000000000.mp4"].
Proof. split; vm_compute; reflexivity. Qed.

Example trim_failure_run :
  fst <$> trace (serve sample_client id Trim sample_request run_failed sample_world).2
  = [FfmpegSave
       (mkCommand ["/tmp/abc"] (Some (JNum 0)) (Some (JNum 5)) []
          ["-c copy"; "-threads 1"; "-preset ultrafast"])
       "/tmp/trimmed_1700000000000.mp4";
     ConsoleError "FFmpeg Error:" "boom";
     CleanupFiles ["/tmp/abc"; "/tmp/trimmed_1700000000000.mp4"];
     Unlink "/tmp/abc";
     Respond 500
       [("error", JsonString "Video processing failed.");
        ("details", JsonString "boom")]].
Proof. vm_compute; reflexivity. Qed.

Example crop_object_field_raises :
  crop sample_client
    (mkRequest (Some (mkFile "/tmp/abc")) None {[ "w" := JObj [("a", JStr "640")] ]})
    sample_world
  = (Thrown TypeError_primitive, sample_world).
Proof. vm_compute; reflexivity. Qed.

Example crop_repeated_field_is_joined :
  invocations
    (trace (crop sample_client
              (mkRequest (Some (mkFile "/tmp/abc")) None
                 {[ "w" := JArr [JStr "640"; JStr "320"] ]})
              sample_world).2)
  = [(mkCommand ["/tmp/abc"] None None ["crop=640,320:1920:0:0"]
        ["-threads 1"; "-preset ultrafast"],
      "/tmp/cropped_1700000000000.mp4")].
Proof. vm_compute; reflexivity. Qed.

Example basename_examples :
  basename "/tmp/trimmed_17.mp4" = "trimmed_17.mp4"
  ∧ basename "/tmp/a//" = "a" ∧ basename "/" = "" ∧ basename "abc" = "abc".
Proof. repeat split. Qed.

(** C1, the sentence as worded fails: on the success path of a /trim Job
    the response is sent while the input file is still in the scratch
    store. *)
Lemma response_precedes_cleanup_on_success :
  ¬ deleted_before_response sample_client id Trim sample_request run_ok sample_world.
Proof.
  intros H.
  assert (present (<["/tmp/trimmed_1700000000000.mp4" := "OUT"]> {["/tmp/abc" := "VID"]})
            "/tmp/abc" = false) as Hp.
  { apply (H ["/tmp/abc"] 200%Z
             (success_payload "https://cdn.example/videos/trimmed_1700000000000.mp4")
             _ "/tmp/abc" eq_refl).
    - vm_compute. left.
    - left. }
  vm_compute in Hp. discriminate.
Qed.

(** C2, the sentence as worded fails: when the engine ends leaving an empty
    output file, that empty content is uploaded. *)
Lemma empty_output_is_uploaded :
  ¬ artifact_from_nonempty_output sample_client id Trim sample_request run_empty
      sample_world.
Proof.
  intros H. apply (H "trimmed_1700000000000.mp4" ""); [|done].
  vm_compute. left.
Qed.

(** C8, the sentence as worded fails: with an empty public URL the Job is
    answered 200. *)
Lemma blank_url_is_answered_as_success :
  ¬ blank_url_is_upload_failure blank_url_client id Trim sample_request run_ok
      sample_world.
Proof.
  intros H.
  assert (200 = 500)%Z as Hs; [|done].
  apply (H eq_refl 200%Z (success_payload "")
           (<["/tmp/trimmed_1700000000000.mp4" := "OUT"]> {["/tmp/abc" := "VID"]})).
  vm_compute. left.
Qed.

(** ** The theorems at a concrete Job *)

(** The cleanup theorem at the /trim Job whose upload succeeds. *)
Lemma cleanup_once_on_trim_success :
  let out := output_path Trim (clock sample_world) in
  let paths := ["/tmp/abc"] ++ [out] in
  ∃ w' t s pl m,
    serve sample_client id Trim sample_request run_ok sample_world = (Returned tt, w')
    ∧ trace w' = trace sample_world ++ t
    ∧ cleanup_calls t = [paths]
    ∧ (∀ q, q ∈ paths → present (fs w') q = false)
    ∧ responses t = [(s, pl, m)]
    ∧ m = after_engine run_ok out (fs sample_world).
Proof.
  apply (cleanup_once_on_every_terminal_path sample_client id Trim sample_request
           ["/tmp/abc"] run_ok sample_world).
  reflexivity.
Defined.

(** The upload theorem at the /trim Job whose transform fails. *)
Lemma upload_only_after_end_on_trim_failure :
  let out := output_path Trim (clock sample_world) in
  let m1 := after_engine run_failed out (fs sample_world) in
  ∃ w' t,
    serve sample_client id Trim sample_request run_failed sample_world = (Returned tt, w')
    ∧ trace w' = trace sample_world ++ t
    ∧ (∀ n c, (n, c) ∈ uploads t →
         signal run_failed = SigEnd ∧ n = basename out ∧ m1 !! out = Some c)
    ∧ (∀ e, signal run_failed = SigError e →
         uploads t = [] ∧ bucket w' = bucket sample_world)
    ∧ (∀ n, bucket w' !! n ≠ bucket sample_world !! n →
         signal run_failed = SigEnd ∧ n = basename out ∧ bucket w' !! n = m1 !! out).
Proof.
  apply (upload_only_after_end sample_client id Trim sample_request
           ["/tmp/abc"] run_failed sample_world).
  reflexivity.
Defined.

(** The parameter theorem at a request with an empty body, where the
    documented defaults reach the command, and at a request whose fields
    are present (one of them empty) or absent. *)
Lemma trim_crop_parameters_on_sample_requests :
  (∃ p cmd,
     trim sample_client sample_request sample_world
     = (Returned (Some p),
        mkWorld (fs sample_world) (bucket sample_world) (clock sample_world)
                (trace sample_world
                   ++ [(FfmpegSave cmd (output_path Trim (clock sample_world)),
                        fs sample_world)]))
     ∧ cmd_startTime cmd = Some (JNum 0)
     ∧ cmd_duration cmd = Some (JNum 5))
  ∧ (∃ p cmd,
       trim sample_client geometry_request sample_world
       = (Returned (Some p),
          mkWorld (fs sample_world) (bucket sample_world) (clock sample_world)
                  (trace sample_world
                     ++ [(FfmpegSave cmd (output_path Trim (clock sample_world)),
                          fs sample_world)]))
       ∧ cmd_startTime cmd = Some (JStr "3")
       ∧ cmd_duration cmd = Some (JStr ""))
  ∧ (∃ p cmd,
       crop sample_client sample_request sample_world
       = (Returned (Some p),
          mkWorld (fs sample_world) (bucket sample_world) (clock sample_world)
                  (trace sample_world
                     ++ [(FfmpegSave cmd (output_path Crop (clock sample_world)),
                          fs sample_world)]))
       ∧ cmd_videoFilters cmd = ["crop=1080:1920:0:0"])
  ∧ (∃ p cmd,
       crop sample_client geometry_request sample_world
       = (Returned (Some p),
          mkWorld (fs sample_world) (bucket sample_world) (clock sample_world)
                  (trace sample_world
                     ++ [(FfmpegSave cmd (output_path Crop (clock sample_world)),
                          fs sample_world)]))
       ∧ cmd_videoFilters cmd = ["crop=640::10:0"]).
Proof.
  destruct (trim_crop_defaults_only_when_absent sample_client sample_request
              (mkFile "/tmp/abc") sample_world eq_refl)
    as [(p & cmd & Ht & Hs & Hd & _) Hcrop].
  destruct (Hcrop None None None None eq_refl eq_refl eq_refl eq_refl)
    as (p' & cmd' & Hc & Hf & _).
  destruct (trim_crop_defaults_only_when_absent sample_client geometry_request
              (mkFile "/tmp/abc") sample_world eq_refl)
    as [(q & cmdq & Hqt & Hqs & Hqd & _) Hqcrop].
  destruct (Hqcrop (Some "640") (Some "") (Some "10") None
              eq_refl eq_refl eq_refl eq_refl)
    as (q' & cmdq' & Hqc & Hqf & _).
  split; [exists p, cmd; split; [exact Ht|]; split; [exact Hs|exact Hd]|].
  split; [exists q, cmdq; split; [exact Hqt|]; split; [exact Hqs|exact Hqd]|].
  split; [exists p', cmd'; split; [exact Hc|exact Hf]|].
  exists q', cmdq'. split; [exact Hqc|exact Hqf].
Defined.

(** The resource options at a /merge Job of two videos. *)
Lemma resource_options_on_merge :
  let req := mkRequest None (Some (FilesArray [mkFile "/tmp/a"; mkFile "/tmp/b"])) ∅ in
  ∃ cmd w' t,
    serve sample_client id Merge req run_ok sample_world = (Returned tt, w')
    ∧ trace w' = trace sample_world ++ t
    ∧ invocations t = [(cmd, output_path Merge (clock sample_world))]
    ∧ "-threads 1" ∈ cmd_outputOptions cmd
    ∧ "-preset ultrafast" ∈ cmd_outputOptions cmd.
Proof.
  apply (resource_options_on_every_invocation sample_client id Merge
           (mkRequest None (Some (FilesArray [mkFile "/tmp/a"; mkFile "/tmp/b"])) ∅)
           ["/tmp/a"; "/tmp/b"] run_ok sample_world).
  reflexivity.
Defined.

(** The two failure payloads of one /trim Job, with a storage service that
    refuses every upload. *)
Lemma failure_payloads_on_trim :
  ∃ w_t t_t m_t p_t w_u t_u m_u p_u,
    serve refusing_client id Trim sample_request run_failed sample_world
    = (Returned tt, w_t)
    ∧ trace w_t = trace sample_world ++ t_t
    ∧ responses t_t = [(500%Z, p_t, m_t)]
    ∧ serve refusing_client id Trim sample_request run_ok sample_world
      = (Returned tt, w_u)
    ∧ trace w_u = trace sample_world ++ t_u
    ∧ responses t_u = [(500%Z, p_u, m_u)]
    ∧ ("details", JsonString "boom") ∈ p_t
    ∧ ("details", JsonString "quota exceeded") ∈ p_u
    ∧ p_t ≠ p_u.
Proof.
  apply (upload_failure_distinct_from_transform_failure refusing_client id Trim
           sample_request ["/tmp/abc"] sample_world run_failed run_ok
           (mkError "boom") (mkError "quota exceeded")).
  - reflexivity.
  - reflexivity.
  - reflexivity.
  - vm_compute. reflexivity.
Defined.

(** The success payload of the /trim Job. *)
Lemma success_url_on_trim :
  let out := output_path Trim (clock sample_world) in
  ∃ w' t m,
    serve sample_client id Trim sample_request run_ok sample_world = (Returned tt, w')
    ∧ trace w' = trace sample_world ++ t
    ∧ uploads t = [(basename out, "OUT")]
    ∧ responses t
      = [(200%Z, success_payload (publicUrl sample_client (basename out)), m)]
    ∧ bucket w' !! basename out = Some "OUT".
Proof.
  apply (success_returns_resolved_url sample_client id Trim sample_request
           ["/tmp/abc"] run_ok sample_world "OUT").
  - reflexivity.
  - reflexivity.
  - vm_compute. reflexivity.
  - reflexivity.
Defined.

(** The sweep over a listing of one object aged 25 hours and one aged 1
    hour. *)
Lemma sweep_on_sample_listing :
  let files := [mkFileObject "old.mp4" (1700000000000 - 25 * 60 * 60 * 1000);
                mkFileObject "new.mp4" (1700000000000 - 1 * 60 * 60 * 1000)] in
  let expired :=
    filter (λ f, (clock sample_world - created_at f > 24 * 60 * 60 * 1000)%Z) files in
  ∃ w' t,
    sweep listing_client sample_world = (Returned tt, w')
    ∧ trace w' = trace sample_world ++ t
    ∧ removals t = (if decide (expired = []) then [] else [name <$> expired])
    ∧ fs w' = fs sample_world
    ∧ (∀ f, f ∈ files →
         created_at f = (clock sample_world - 25 * 60 * 60 * 1000)%Z → f ∈ expired)
    ∧ (∀ f, created_at f = (clock sample_world - 1 * 60 * 60 * 1000)%Z → f ∉ expired).
Proof.
  apply (sweep_removes_older_than_a_day listing_client
           [mkFileObject "old.mp4" (1700000000000 - 25 * 60 * 60 * 1000);
            mkFileObject "new.mp4" (1700000000000 - 1 * 60 * 60 * 1000)]
           sample_world).
  reflexivity.
Defined.

Example sweep_listing_removes_old_only :
  removals (trace (sweep listing_client sample_world).2) = [["old.mp4"]].
Proof. vm_compute; reflexivity. Qed.

(** The artifact name of the /trim Job. *)
Lemma artifact_name_on_trim :
  let out := output_path Trim (clock sample_world) in
  let artifact := "trimmed" +:+ "_" +:+ pretty (clock sample_world) +:+ ".mp4" in
  out = "/tmp/" +:+ artifact
  ∧ basename out = artifact
  ∧ (∃ stem, artifact = stem +:+ ".mp4")
  ∧ (∃ w' t cmd,
       serve sample_client id Trim sample_request run_ok sample_world = (Returned tt, w')
       ∧ trace w' = trace sample_world ++ t
       ∧ invocations t = [(cmd, out)]
       ∧ (∀ n c, (n, c) ∈ uploads t → n = artifact)
       ∧ (∀ c, signal run_ok = SigEnd →
            after_engine run_ok out (fs sample_world) !! out = Some c →
            uploads t = [(artifact, c)]))
  ∧ (∀ req2 ins2 run2 w2,
       job_inputs id Trim req2 = Some ins2 → clock w2 = clock sample_world →
       ∃ w2' t2 cmd2,
         serve sample_client id Trim req2 run2 w2 = (Returned tt, w2')
         ∧ trace w2' = trace w2 ++ t2
         ∧ invocations t2 = [(cmd2, out)]
         ∧ (∀ n c, (n, c) ∈ uploads t2 → n = artifact)).
Proof.
  apply (artifact_name_is_output_basename sample_client id Trim sample_request
           ["/tmp/abc"] run_ok sample_world).
  reflexivity.
Defined.

(** ** Further properties of the helpers *)

Lemma present_delete m q p :
  present (delete q m) p = present m p && bool_decide (p ≠ q).
Proof.
  unfold present. destruct (truthy p); [|done]. cbn [andb].
  destruct (decide (p = q)) as [->|Hne].
  - rewrite lookup_delete_eq, (bool_decide_eq_false_2 (q ≠ q)) by auto.
    rewrite andb_false_r. apply bool_decide_eq_false. by intros [? ?].
  - rewrite lookup_delete_ne by done.
    by rewrite (bool_decide_eq_true_2 (p ≠ q)), andb_true_r.
Qed.

Lemma cleanup_trace_unlinked files : ∀ m,
  NoDup (unlinked (cleanup_trace files m))
  ∧ ∀ p, p ∈ unlinked (cleanup_trace files m) ↔ p ∈ files ∧ present m p = true.
Proof.
  induction files as [|q r IH]; intros m; cbn [cleanup_trace].
  - split; [constructor|]. intros p. split; [by intros ?%elem_of_nil|].
    by intros [?%elem_of_nil _].
  - destruct (present m q) eqn:Hq.
    + destruct (IH (delete q m)) as [Hnd Hin].
      change (unlinked ((Unlink q, m) :: cleanup_trace r (delete q m)))
        with (q :: unlinked (cleanup_trace r (delete q m))).
      split.
      * constructor; [|done]. rewrite Hin, present_delete.
        intros [_ [_ Hf]%andb_prop]. by apply bool_decide_eq_true in Hf.
      * intros p. rewrite !elem_of_cons, Hin, present_delete. split.
        -- intros [->|[? [? _]%andb_prop]]; [by split; [left|]|by split; [right|]].
        -- intros [[->|Hr] Hp]; [by left|].
           destruct (decide (p = q)) as [->|Hne]; [by left|right].
           split; [done|]. rewrite Hp. by rewrite bool_decide_eq_true_2.
    + destruct (IH m) as [Hnd Hin]. split; [done|].
      intros p. rewrite Hin, elem_of_cons. split; [by intros [? ?]; split; [right|]|].
      intros [[->|?] Hp]; [congruence|done].
Qed.

(** X1. [cleanupFiles] hands to [unlinkSync] each listed path that exists
    exactly once, also when the list repeats it, and never a path that is
    missing or not listed. *)
Theorem cleanupFiles_unlinks_each_existing_path_once (files : list string) (w : World) :
  ∃ w' t,
    cleanupFiles files w = (Returned tt, w')
    ∧ trace w' = trace w ++ t
    ∧ NoDup (unlinked t)
    ∧ ∀ p, p ∈ unlinked t ↔ p ∈ files ∧ present (fs w) p = true.
Proof.
  eexists _, _. split; [apply cleanupFiles_eq|]. split; [reflexivity|].
  change (unlinked ((CleanupFiles files, fs w) :: cleanup_trace files (fs w)))
    with (unlinked (cleanup_trace files (fs w))).
  apply cleanup_trace_unlinked.
Qed.

Lemma cleanup_fs_app a : ∀ b m,
  cleanup_fs (a ++ b) m = cleanup_fs b (cleanup_fs a m).
Proof. induction a as [|p a IH]; intros b m; [done|]. apply IH. Qed.

(** X2. Cleaning two lists one after the other leaves the same scratch
    store as cleaning their concatenation, and the store that a cleanup
    leaves depends only on which paths are listed, not on their order or
    repetition. *)
Theorem cleanupFiles_composes (a b : list string) (w : World) :
  fs ((cleanupFiles a ;; cleanupFiles b) w).2 = fs (cleanupFiles (a ++ b) w).2
  ∧ ((cleanupFiles a ;; cleanupFiles b) w).1 = Returned tt
  ∧ (∀ l, (∀ p, p ∈ l ↔ p ∈ a) →
       fs (cleanupFiles l w).2 = fs (cleanupFiles a w).2).
Proof.
  unfold mbind, Js_bind. rewrite !cleanupFiles_eq. cbn [fst snd fs].
  rewrite ?cleanupFiles_eq. cbn [fst snd fs].
  split; [by rewrite cleanup_fs_app|]. split; [done|].
  intros l Hl. rewrite cleanupFiles_eq. cbn [snd fs].
  apply map_eq. intros p. rewrite !cleanup_fs_lookup.
  destruct (decide (p ∈ l ∧ truthy p = true)) as [[H1 H2]|Hn].
  - rewrite decide_True; [done|]. split; [by apply Hl|done].
  - rewrite decide_False; [done|]. intros [H1 H2]. apply Hn. split; [by apply Hl|done].
Qed.

(** X3. [uploadToSupabase] reads the local file first: when it is missing
    the function raises without contacting the storage service and leaves
    the world as it was.  When the service refuses the upload its error is
    raised, after one upload attempt with content type [video/mp4] and
    [upsert]; when it accepts, the function returns the public URL of the
    given name and the bucket holds the file content under that name.  In
    no case is the local scratch store changed. *)
Theorem uploadToSupabase_outcomes supabase (localFilePath fileName : string) (w : World) :
  (present (fs w) localFilePath = false →
     ∃ e, uploadToSupabase supabase localFilePath fileName w = (Thrown e, w))
  ∧ (∀ c, present (fs w) localFilePath = true → fs w !! localFilePath = Some c →
       let w1 := mkWorld (fs w) (bucket w) (clock w)
                   (trace w ++ [(StorageUpload fileName c "video/mp4" true, fs w)]) in
       match upload_error supabase fileName c with
       | Some e => uploadToSupabase supabase localFilePath fileName w = (Thrown e, w1)
       | None =>
           uploadToSupabase supabase localFilePath fileName w
           = (Returned (publicUrl supabase fileName),
              mkWorld (fs w) (<[fileName := c]> (bucket w)) (clock w) (trace w1))
       end)
  ∧ fs (uploadToSupabase supabase localFilePath fileName w).2 = fs w.
Proof.
  unfold uploadToSupabase, storage_upload, readFileSync, present. js_unfold.
  destruct w as [m b c t]. cbn [fs bucket clock trace].
  destruct (m !! localFilePath) as [content|] eqn:Hc; cbn.
  - destruct (truthy localFilePath) eqn:Ht; cbn.
    + split; [done|].
      split; [|by destruct (upload_error supabase fileName content)].
      intros c' _ [= <-]. by destruct (upload_error supabase fileName content).
    + split; [by eexists|]. split; [done|done].
  - split; [by eexists|]. split; [|done]. by intros c' _ ?.
Qed.

(** ** Further properties of the route callbacks *)

Lemma foldl_input_inputs l : ∀ c,
  cmd_inputs (foldl (λ c p, input p c) c l) = cmd_inputs c ++ l.
Proof.
  induction l as [|p l IH]; intros c; cbn [foldl]; [by rewrite app_nil_r|].
  rewrite IH. cbn [input cmd_inputs]. by rewrite <- app_assoc.
Qed.

Section Callbacks.

Variable supabase : SupabaseClient.
Variable path_resolve : string → string.

Lemma handler_started r req ins w :
  job_inputs path_resolve r req = Some ins →
  ∃ p cmd e,
    handler supabase path_resolve r req w
    = (Returned (Some p),
       mkWorld (fs w) (bucket w) (clock w) (trace w ++ [(e, fs w)]))
    ∧ invocations [(e, fs w)] = [(cmd, output_path r (clock w))]
    ∧ target p = output_path r (clock w)
    ∧ (r ≠ AddCaption → cmd_inputs cmd = ins)
    ∧ (r = AddCaption →
         ∃ v s, ins = [v; s] ∧ cmd_inputs cmd = [v]
                ∧ cmd_videoFilters cmd = ["subtitles=" +:+ s]).
Proof.
  intros Hin. destruct r; cbn [job_inputs] in Hin; unfold handler.
  - destruct (file req) as [f|] eqn:Hf; [|done]. simplify_eq/=.
    unfold trim. rewrite Hf. eexists _, _, _.
    split; [reflexivity|]. split; [reflexivity|]. split; [reflexivity|]. done.
  - destruct (file req) as [f|] eqn:Hf; [|done].
    destruct (crop_geometry (body req)) as [flt|] eqn:Hg; [|done]. simplify_eq/=.
    unfold crop. rewrite Hf. unfold mbind at 1. unfold Js_bind, Date_now.
    cbn beta iota zeta. fold (crop_geometry (body req)). rewrite Hg.
    eexists _, _, _.
    split; [reflexivity|]. split; [reflexivity|]. split; [reflexivity|]. done.
  - destruct (files req) as [[m|?]|] eqn:Hf; [|done..].
    destruct (m !! "video") as [[|v ?]|] eqn:Hv; [done| |done].
    destruct (m !! "audio") as [[|a ?]|] eqn:Ha; [done| |done].
    simplify_eq/=. unfold add_voice, files_field. rewrite Hf.
    unfold mbind at 1. unfold Js_bind, mret, Js_ret. rewrite Hv.
    unfold mbind at 1. unfold Js_bind, mret, Js_ret. rewrite Ha.
    eexists _, _, _.
    split; [reflexivity|]. split; [reflexivity|]. split; [reflexivity|]. done.
  - destruct (files req) as [[m|?]|] eqn:Hf; [|done..].
    destruct (m !! "video") as [[|v ?]|] eqn:Hv; [done| |done].
    destruct (m !! "subtitle") as [[|a ?]|] eqn:Ha; [done| |done].
    simplify_eq/=. unfold add_caption, files_field. rewrite Hf.
    unfold mbind at 1. unfold Js_bind, mret, Js_ret. rewrite Hv.
    unfold mbind at 1. unfold Js_bind, mret, Js_ret. rewrite Ha.
    eexists _, _, _.
    split; [reflexivity|]. split; [reflexivity|]. split; [reflexivity|].
    split; [done|]. intros _. by eexists _, _.
  - destruct (files req) as [[?|l]|] eqn:Hf; [done| |done].
    destruct (decide (length l = 2)) as [Hl|]; [|done]. simplify_eq/=.
    unfold merge. rewrite Hf, decide_True by done.
    eexists _, _, _.
    split; [reflexivity|]. split; [reflexivity|]. split; [reflexivity|].
    split; [|done]. intros _. cbn [outputOptions cmd_inputs].
    by rewrite foldl_input_inputs.
Qed.

Lemma handler_invalid r req w :
  job_inputs path_resolve r req = None →
  (∃ msg, handler supabase path_resolve r req w
          = (Returned None,
             mkWorld (fs w) (bucket w) (clock w)
                     (trace w ++ [(Respond 400 [("error", JsonString msg)], fs w)])))
  ∨ (∃ e, handler supabase path_resolve r req w = (Thrown e, w)
          ∧ (r = AddVoice ∨ r = AddCaption
             ∨ (r = Crop ∧ is_Some (file req) ∧ crop_geometry (body req) = None))).
Proof.
  intros Hin. destruct r; cbn [job_inputs] in Hin; unfold handler.
  - unfold trim. destruct (file req); [done|]. left. by eexists.
  - unfold crop. destruct (file req) as [f|]; [|left; by eexists].
    destruct (crop_geometry (body req)) as [flt|] eqn:Hg; [done|].
    right. exists TypeError_primitive. split; [|by right; right].
    unfold mbind at 1. unfold Js_bind, Date_now.
    cbn beta iota zeta. fold (crop_geometry (body req)). rewrite Hg. by destruct w.
  - unfold add_voice, files_field.
    destruct (files req) as [[m|?]|]; [|left; by eexists|right; eexists; split; [|by left]; by destruct w].
    unfold mbind at 1. unfold Js_bind, mret, Js_ret.
    destruct (m !! "video") as [video|]; [|left; by eexists].
    unfold mbind at 1. unfold Js_bind, mret, Js_ret.
    destruct (m !! "audio") as [audio|]; [|left; by eexists].
    right. eexists. split; [|by left].
    destruct video as [|v ?]; [by destruct w|].
    destruct audio as [|a ?]; [by destruct w|done].
  - unfold add_caption, files_field.
    destruct (files req) as [[m|?]|]; [|left; by eexists|right; eexists; split; [|by right; left]; by destruct w].
    unfold mbind at 1. unfold Js_bind, mret, Js_ret.
    destruct (m !! "video") as [video|]; [|left; by eexists].
    unfold mbind at 1. unfold Js_bind, mret, Js_ret.
    destruct (m !! "subtitle") as [subtitle|]; [|left; by eexists].
    right. eexists. split; [|by right; left].
    destruct subtitle as [|s ?]; [by destruct w|].
    destruct video as [|v ?]; [by destruct w|done].
  - left. unfold merge. destruct (files req) as [[?|l]|]; [by eexists| |by eexists].
    destruct (decide (length l = 2)); [done|by eexists].
Qed.

End Callbacks.

(** ** Output paths and artifact names *)

Lemma append_inj_r (s1 s2 x : string) : s1 +:+ x = s2 +:+ x → s1 = s2.
Proof.
  intros H. apply (f_equal String.list_ascii_of_string) in H.
  rewrite !list_ascii_of_string_app in H. apply app_inv_tail in H.
  rewrite <- (String.string_of_list_ascii_of_string s1),
          <- (String.string_of_list_ascii_of_string s2). by rewrite H.
Qed.

Lemma until_slash_no_slash l : Forall (λ c, is_slash c = false) (until_slash l).
Proof.
  induction l as [|c l IH]; cbn [until_slash]; [constructor|].
  destruct (is_slash c) eqn:Hc; [constructor|by constructor].
Qed.

Lemma basename_no_slash p : no_slash (basename p).
Proof.
  unfold no_slash, basename. rewrite String.list_ascii_of_string_of_list_ascii.
  apply Forall_rev, until_slash_no_slash.
Qed.

(** X7. Output paths, and with them artifact names, are assigned
    injectively: two Jobs get the same output path, or the same artifact
    name, exactly when they are of the same operation and their callbacks
    read the same clock value. *)
Theorem output_path_injective (r1 r2 : Route) (t1 t2 : Z) :
  (output_path r1 t1 = output_path r2 t2 ↔ r1 = r2 ∧ t1 = t2)
  ∧ (basename (output_path r1 t1) = basename (output_path r2 t2) ↔ r1 = r2 ∧ t1 = t2).
Proof.
  assert (prefix r1 +:+ "_" +:+ pretty t1 +:+ ".mp4"
          = prefix r2 +:+ "_" +:+ pretty t2 +:+ ".mp4" → r1 = r2 ∧ t1 = t2) as Hinj.
  { intros H.
    destruct r1, r2; unfold prefix in H; cbn [String.append] in H;
      try discriminate H; simplify_eq;
      (split; [done|]);
      match goal with
      | H : pretty _ +:+ _ = pretty _ +:+ _ |- _ =>
          apply append_inj_r in H; by apply (inj pretty) in H
      end. }
  split; split.
  - unfold output_path. intros H. cbn [String.append] in H. simplify_eq. by apply Hinj.
  - by intros [-> ->].
  - rewrite !basename_output_path. apply Hinj.
  - by intros [-> ->].
Qed.

(** ** Further properties of a whole request *)

Section Requests.

Variable supabase : SupabaseClient.
Variable path_resolve : string → string.

Lemma serve_after_handler r req run w :
  serve supabase path_resolve r req run w
  = match handler supabase path_resolve r req w with
    | (Returned (Some p), w1) => engine_finish run p w1
    | (Returned None, w1) => (Returned tt, w1)
    | (Thrown e, w1) => (Thrown e, w1)
    end.
Proof.
  unfold serve, mbind, Js_bind.
  by destruct (handler supabase path_resolve r req w) as [[[?|]|] ?].
Qed.

Lemma crop_geometry_object b k fields :
  k ∈ ["w"; "h"; "x"; "y"] → b !! k = Some (JObj fields) → crop_geometry b = None.
Proof.
  intros Hk Hb. unfold crop_geometry, crop_template, field_or.
  repeat (apply elem_of_cons in Hk as [->|Hk]); [..|by apply elem_of_nil in Hk];
    rewrite Hb; cbn [toString mbind option_bind];
    repeat (match goal with
            | |- context [toString ?v] => destruct (toString v); cbn [mbind option_bind]
            end); done.
Qed.

(** X4. Whatever the request, a route callback does one of three things:
    it starts exactly one engine command on the output path of its route
    and clock value (when the request passes validation), it answers 400
    with an [error] message and starts nothing, or it raises before any
    response.  It raises only on /add-voice and /add-caption, and on /crop
    with the video file present; on /crop it does raise whenever one of
    [w], [h], [x], [y] is an object.  In every case the callback itself
    leaves the scratch store and the bucket as they were: files that multer
    wrote for a rejected request stay where they are. *)
Theorem route_callback_starts_rejects_or_raises r req w :
  ∃ res w',
    handler supabase path_resolve r req w = (res, w')
    ∧ fs w' = fs w ∧ bucket w' = bucket w ∧ clock w' = clock w
    ∧ match res with
      | Returned (Some p) =>
          is_Some (job_inputs path_resolve r req)
          ∧ target p = output_path r (clock w)
          ∧ ∃ e cmd, trace w' = trace w ++ [(e, fs w)]
                     ∧ invocations [(e, fs w)] = [(cmd, output_path r (clock w))]
      | Returned None =>
          job_inputs path_resolve r req = None
          ∧ ∃ msg, trace w' = trace w ++ [(Respond 400 [("error", JsonString msg)], fs w)]
      | Thrown _ =>
          job_inputs path_resolve r req = None
          ∧ trace w' = trace w
          ∧ (r = AddVoice ∨ r = AddCaption ∨ (r = Crop ∧ is_Some (file req)))
      end
    ∧ (r = Crop → is_Some (file req) →
       (∃ k fields, k ∈ ["w"; "h"; "x"; "y"] ∧ body req !! k = Some (JObj fields)) →
       ∃ e, res = Thrown e).
Proof.
  destruct (job_inputs path_resolve r req) as [ins|] eqn:Hin.
  - destruct (handler_started supabase path_resolve r req ins w Hin)
      as (p & cmd & e & Hh & Hinv & Htg & _).
    eexists _, _. split; [exact Hh|]. cbn [fs bucket clock trace].
    do 3 (split; [done|]). split.
    + split; [by eexists|]. split; [done|]. by exists e, cmd.
    + intros -> [f Hf] (k & fields & Hk & Hb). exfalso.
      cbn [job_inputs] in Hin. rewrite Hf in Hin.
      by rewrite (crop_geometry_object _ _ _ Hk Hb) in Hin.
  - destruct (handler_invalid supabase path_resolve r req w Hin)
      as [[msg Hh]|(e & Hh & Hr)].
    + eexists _, _. split; [exact Hh|]. cbn [fs bucket clock trace].
      do 3 (split; [done|]). split; [split; [done|by exists msg]|].
      intros -> [f Hf] (k & fields & Hk & Hb). exfalso.
      unfold handler, crop in Hh. rewrite Hf in Hh.
      unfold mbind at 1 in Hh. unfold Js_bind, Date_now in Hh.
      cbn beta iota zeta in Hh. fold (crop_geometry (body req)) in Hh.
      by rewrite (crop_geometry_object _ _ _ Hk Hb) in Hh.
    + eexists _, _. split; [exact Hh|]. do 3 (split; [done|]).
      split; [|intros; by exists e].
      split; [done|]. split; [done|].
      destruct Hr as [?|[?|(? & ? & _)]]; auto.
Qed.

(** X5. Every request is answered at most once.  When the run returns
    there is exactly one response, with status 200, 400 or 500: a 400 is the
    only thing a rejected request adds to the trace, and a 200 is sent only
    when the bucket holds the artifact under the base name of the output
    path.  When the callback raises, nothing was sent. *)
Theorem request_answered_at_most_once r req run w :
  ∃ res w' t,
    serve supabase path_resolve r req run w = (res, w')
    ∧ trace w' = trace w ++ t
    ∧ match res with
      | Returned _ =>
          ∃ s pl m,
            responses t = [(s, pl, m)]
            ∧ (s = 200 ∨ s = 400 ∨ s = 500)%Z
            ∧ (s = 200%Z →
                 is_Some (bucket w' !! basename (output_path r (clock w))))
            ∧ (s = 400%Z → t = [(Respond 400 pl, fs w)] ∧ fs w' = fs w)
      | Thrown _ => t = []
      end.
Proof.
  destruct (job_inputs path_resolve r req) as [ins|] eqn:Hin.
  - destruct (serve_outcome supabase path_resolve r req ins run w Hin)
      as (cmd & w' & t & Hs & _ & _ & _ & Ht & _ & _ & _ & Hsig).
    exists (Returned tt), w', t. split; [done|]. split; [done|].
    destruct (signal run) as [|e].
    + destruct (after_engine run (output_path r (clock w)) (fs w)
                  !! output_path r (clock w)) as [c|].
      * destruct Hsig as [_ Hsig].
        destruct (upload_error supabase (basename (output_path r (clock w))) c) as [e|];
          destruct Hsig as [Hr Hb]; eexists _, _, _; (split; [exact Hr|]).
        -- split; [auto|]. split; [done|done].
        -- split; [auto|]. split; [|done]. intros _. by rewrite Hb, lookup_insert_eq.
      * destruct Hsig as (Hr & _). eexists _, _, _. split; [exact Hr|].
        split; [auto|]. split; [done|done].
    + destruct Hsig as (Hr & _). eexists _, _, _. split; [exact Hr|].
      split; [auto|]. split; [done|done].
  - rewrite serve_after_handler.
    destruct (handler_invalid supabase path_resolve r req w Hin)
      as [[msg Hh]|(e & Hh & Hr)]; rewrite Hh.
    + eexists _, _, _. split; [reflexivity|]. cbn [trace]. split; [reflexivity|].
      eexists _, _, _. split; [reflexivity|]. split; [auto|]. split; [done|done].
    + eexists _, _, []. split; [reflexivity|]. split; [by rewrite app_nil_r|done].
Qed.

(** X6. A Job deletes nothing but its own input and output paths: every
    other file of the scratch store is there afterwards with the content it
    had, and the clock is not touched. *)
Theorem job_leaves_other_files_untouched r req ins run w p :
  job_inputs path_resolve r req = Some ins →
  p ∉ ins ++ [output_path r (clock w)] →
  fs (serve supabase path_resolve r req run w).2 !! p = fs w !! p
  ∧ clock (serve supabase path_resolve r req run w).2 = clock w.
Proof.
  intros Hin Hp.
  destruct (serve_outcome supabase path_resolve r req ins run w Hin)
    as (cmd & w' & t & Hs & _ & _ & _ & Ht & Hck & Hfs & _).
  rewrite Hs. cbn [snd]. split; [|done].
  rewrite Hfs, cleanup_fs_lookup. rewrite decide_False by (by intros [? _]).
  unfold after_engine. destruct (leaves run); [|done].
  apply lookup_insert_ne. intros <-. apply Hp. set_solver.
Qed.

(** X8. Every name under which a Job uploads is non-empty and contains no
    slash: artifacts are always top-level objects of the bucket. *)
Theorem artifact_names_are_flat r req ins run w :
  job_inputs path_resolve r req = Some ins →
  ∃ w' t,
    serve supabase path_resolve r req run w = (Returned tt, w')
    ∧ trace w' = trace w ++ t
    ∧ ∀ n c, (n, c) ∈ uploads t → n ≠ "" ∧ no_slash n.
Proof.
  intros Hin.
  destruct (serve_outcome supabase path_resolve r req ins run w Hin)
    as (cmd & w' & t & Hs & _ & _ & _ & Ht & _ & _ & _ & Hsig).
  exists w', t. split; [done|]. split; [done|].
  assert (basename (output_path r (clock w)) ≠ "") as Hne.
  { rewrite basename_output_path. by destruct r. }
  intros n c Hn.
  assert (n = basename (output_path r (clock w))) as ->; [|split; [done|apply basename_no_slash]].
  destruct (signal run) as [|e].
  - destruct (after_engine run (output_path r (clock w)) (fs w)
                !! output_path r (clock w)) as [c'|].
    + destruct Hsig as [Hu _]. rewrite Hu in Hn.
      by apply list_elem_of_singleton in Hn as [= -> _].
    + destruct Hsig as (_ & Hu & _). rewrite Hu in Hn. by apply elem_of_nil in Hn.
  - destruct Hsig as (_ & Hu & _). rewrite Hu in Hn. by apply elem_of_nil in Hn.
Qed.

(** X9. A Job whose artifact name is already taken in the bucket is not
    refused for that: the upload asks for [upsert], so when the engine
    ends with the output in place and the service raises no error of its
    own, the Job is answered 200, the bucket holds the new output under
    that name in place of the old object, and every other object is as
    before. *)
Theorem taken_artifact_name_is_overwritten r req ins run w c old :
  job_inputs path_resolve r req = Some ins →
  let out := output_path r (clock w) in
  let artifact := basename out in
  bucket w !! artifact = Some old →
  signal run = SigEnd →
  after_engine run out (fs w) !! out = Some c →
  upload_error supabase artifact c = None →
  ∃ w' t m,
    serve supabase path_resolve r req run w = (Returned tt, w')
    ∧ trace w' = trace w ++ t
    ∧ uploads t = [(artifact, c)]
    ∧ responses t = [(200%Z, success_payload (publicUrl supabase artifact), m)]
    ∧ bucket w' !! artifact = Some c
    ∧ ∀ n, n ≠ artifact → bucket w' !! n = bucket w !! n.
Proof.
  intros Hin out artifact _ Hsg Hout Hup.
  destruct (serve_outcome supabase path_resolve r req ins run w Hin)
    as (? & w' & t & Hs & _ & _ & _ & Ht & _ & _ & _ & Hfin).
  fold out artifact in Hfin. rewrite Hsg, Hout, Hup in Hfin.
  destruct Hfin as (Hu & Hr & Hb).
  eexists w', t, _. do 4 (split; [done|]). rewrite Hb.
  split; [by rewrite lookup_insert_eq|]. intros n Hn. by rewrite lookup_insert_ne.
Qed.

(** X11. The files the engine is given are files the Job cleans up: every
    input of the started command, and on /add-caption the subtitle path
    named in the filter, is among the paths of the one cleanup call, and
    none of them exists when the Job is over.  Except on /add-caption the
    inputs of the command are the input paths of the Job, in upload
    order. *)
Theorem engine_inputs_are_cleaned_up r req ins run w :
  job_inputs path_resolve r req = Some ins →
  ∃ p cmd e w1 w' t,
    handler supabase path_resolve r req w = (Returned (Some p), w1)
    ∧ trace w1 = trace w ++ [(e, fs w)]
    ∧ invocations [(e, fs w)] = [(cmd, output_path r (clock w))]
    ∧ engine_finish run p w1 = (Returned tt, w')
    ∧ trace w' = trace w ++ t
    ∧ cleanup_calls t = [ins ++ [output_path r (clock w)]]
    ∧ (∀ q, q ∈ cmd_inputs cmd → q ∈ ins ∧ present (fs w') q = false)
    ∧ (r ≠ AddCaption → cmd_inputs cmd = ins)
    ∧ (r = AddCaption →
         ∃ s, cmd_videoFilters cmd = ["subtitles=" +:+ s]
              ∧ s ∈ ins ∧ present (fs w') s = false).
Proof.
  intros Hin.
  destruct (handler_started supabase path_resolve r req ins w Hin)
    as (p & cmd & e & Hh & Hinv & _ & Hother & Hcap).
  destruct (serve_outcome supabase path_resolve r req ins run w Hin)
    as (? & w' & t & Hs & _ & _ & _ & Ht & _ & Hfs & Hcc & _).
  assert (∀ q, q ∈ ins → present (fs w') q = false) as Hgone.
  { intros q Hq. rewrite Hfs. apply cleanup_fs_present. set_solver. }
  eexists p, cmd, e, _, w', t. split; [exact Hh|]. cbn [trace].
  split; [done|]. split; [done|].
  split; [by rewrite serve_after_handler, Hh in Hs|].
  split; [done|]. split; [done|].
  assert (r = AddCaption ∨ r ≠ AddCaption) as [Hr|Hr]
    by (destruct r; (by left) || (by right)).
  - destruct (Hcap Hr) as (v & s & -> & Hci & Hvf). rewrite Hci. split.
    + intros q ->%list_elem_of_singleton. split; [set_solver|apply Hgone; set_solver].
    + split; [done|]. intros _. exists s.
      split; [done|]. split; [set_solver|apply Hgone; set_solver].
  - rewrite (Hother Hr). split; [|done]. intros q Hq. split; [done|by apply Hgone].
Qed.

(** X12. When the engine signals the end but there is no file at the output
    path, the Job is answered like an upload failure, with the ENOENT
    message of the read as [details], and the storage service is never
    contacted. *)
Theorem end_without_output_is_upload_failure r req ins run w :
  job_inputs path_resolve r req = Some ins →
  let out := output_path r (clock w) in
  signal run = SigEnd →
  after_engine run out (fs w) !! out = None →
  ∃ w' t m,
    serve supabase path_resolve r req run w = (Returned tt, w')
    ∧ trace w' = trace w ++ t
    ∧ uploads t = []
    ∧ bucket w' = bucket w
    ∧ responses t
      = [(500%Z,
          error_payload (upload_failed_error r)
            ("ENOENT: no such file or directory, open '" +:+ out +:+ "'"), m)].
Proof.
  intros Hin out Hsg Hout.
  destruct (serve_outcome supabase path_resolve r req ins run w Hin)
    as (? & w' & t & Hs & _ & _ & _ & Ht & _ & _ & _ & Hsig).
  fold out in Hsig. rewrite Hsg, Hout in Hsig. destruct Hsig as (Hr & Hu & Hb).
  by eexists w', t, _.
Qed.

End Requests.

(** ** Further properties of the sweep *)

(** X10. The sweep removes nothing when the listing fails, and nothing when
    no listed object is older than 24 hours, an object of exactly 24 hours
    included: it then only writes its log line, and issues no removal. *)
Theorem sweep_keeps_recent_objects supabase w :
  let quiet := (Returned tt,
                mkWorld (fs w) (bucket w) (clock w)
                        (trace w ++ [(ConsoleLog "Running 24h cleanup...", fs w)])) in
  (list_data supabase = None → sweep supabase w = quiet)
  ∧ (∀ files, list_data supabase = Some files →
       (∀ f, f ∈ files → (clock w - created_at f ≤ 24 * 60 * 60 * 1000)%Z) →
       sweep supabase w = quiet)
  ∧ (∀ n, list_data supabase
          = Some [mkFileObject n (clock w - 24 * 60 * 60 * 1000)] →
       sweep supabase w = quiet).
Proof.
  intros quiet.
  assert (∀ files, list_data supabase = Some files →
       (∀ f, f ∈ files → (clock w - created_at f ≤ 24 * 60 * 60 * 1000)%Z) →
       sweep supabase w = quiet) as Hrecent.
  { intros files Hl Hall.
    assert (filter (λ f, (created_at f < clock w - 24 * 60 * 60 * 1000)%Z) files = [])
      as Hnone.
    { clear Hl. induction files as [|f l IH]; [done|].
      rewrite filter_cons_False.
      - apply IH. intros g Hg. apply Hall. by right.
      - assert (f ∈ f :: l) as Hf by left. apply Hall in Hf. lia. }
    unfold sweep. rewrite Hl. js_unfold. simpl. by rewrite Hnone. }
  split; [|split; [exact Hrecent|]].
  - intros Hl. unfold sweep. rewrite Hl. by js_unfold.
  - intros n Hl. apply (Hrecent _ Hl).
    intros f ->%list_elem_of_singleton. cbn [created_at]. lia.
Qed.

(** ** The further theorems at concrete Jobs *)

(** X6 at the /trim Job in a store that also holds the file of another
    request: that file is still there, with its content. *)
Lemma other_file_survives_trim :
  fs busy_world !! "/tmp/other" = Some "KEEP"
  ∧ fs (serve sample_client id Trim sample_request run_ok busy_world).2 !! "/tmp/other"
    = Some "KEEP"
  ∧ fs (serve sample_client id Trim sample_request run_ok busy_world).2 !! "/tmp/abc"
    = None
  ∧ clock (serve sample_client id Trim sample_request run_ok busy_world).2
    = clock busy_world.
Proof.
  destruct (job_leaves_other_files_untouched sample_client id Trim sample_request
              ["/tmp/abc"] run_ok busy_world "/tmp/other") as [Hkeep Hclock].
  - reflexivity.
  - apply (bool_decide_unpack _). vm_compute. exact I.
  - split; [reflexivity|]. split; [rewrite Hkeep; reflexivity|].
    split; [vm_compute; reflexivity|exact Hclock].
Defined.

(** X8 at the /trim Job. *)
Lemma trim_artifact_name_is_flat :
  ∃ w' t,
    serve sample_client id Trim sample_request run_ok sample_world = (Returned tt, w')
    ∧ trace w' = trace sample_world ++ t
    ∧ ∀ n c, (n, c) ∈ uploads t → n ≠ "" ∧ no_slash n.
Proof.
  apply (artifact_names_are_flat sample_client id Trim sample_request
           ["/tmp/abc"] run_ok sample_world).
  reflexivity.
Defined.

(** X9 at a /trim Job whose artifact name holds an older object. *)
Lemma trim_overwrites_taken_name :
  let out := output_path Trim (clock stocked_world) in
  let artifact := basename out in
  ∃ w' t m,
    serve sample_client id Trim sample_request run_ok stocked_world = (Returned tt, w')
    ∧ trace w' = trace stocked_world ++ t
    ∧ uploads t = [(artifact, "OUT")]
    ∧ responses t = [(200%Z, success_payload (publicUrl sample_client artifact), m)]
    ∧ bucket w' !! artifact = Some "OUT"
    ∧ ∀ n, n ≠ artifact → bucket w' !! n = bucket stocked_world !! n.
Proof.
  apply (taken_artifact_name_is_overwritten sample_client id Trim sample_request
           ["/tmp/abc"] run_ok stocked_world "OUT" "OLD").
  - reflexivity.
  - vm_compute. reflexivity.
  - reflexivity.
  - vm_compute. reflexivity.
  - reflexivity.
Defined.

(** X11 at an /add-caption Job. *)
Lemma caption_inputs_are_cleaned_up :
  let req := mkRequest None
               (Some (FilesByField {[ "video" := [mkFile "/tmp/v"];
                                      "subtitle" := [mkFile "/tmp/s"] ]})) ∅ in
  let ins := ["/tmp/v"; "/tmp/s"] in
  ∃ p cmd e w1 w' t,
    handler sample_client id AddCaption req sample_world = (Returned (Some p), w1)
    ∧ trace w1 = trace sample_world ++ [(e, fs sample_world)]
    ∧ invocations [(e, fs sample_world)]
      = [(cmd, output_path AddCaption (clock sample_world))]
    ∧ engine_finish run_ok p w1 = (Returned tt, w')
    ∧ trace w' = trace sample_world ++ t
    ∧ cleanup_calls t = [ins ++ [output_path AddCaption (clock sample_world)]]
    ∧ (∀ q, q ∈ cmd_inputs cmd → q ∈ ins ∧ present (fs w') q = false)
    ∧ (AddCaption ≠ AddCaption → cmd_inputs cmd = ins)
    ∧ (AddCaption = AddCaption →
         ∃ s, cmd_videoFilters cmd = ["subtitles=" +:+ s]
              ∧ s ∈ ins ∧ present (fs w') s = false).
Proof.
  apply (engine_inputs_are_cleaned_up sample_client id AddCaption
           (mkRequest None
              (Some (FilesByField {[ "video" := [mkFile "/tmp/v"];
                                     "subtitle" := [mkFile "/tmp/s"] ]})) ∅)
           ["/tmp/v"; "/tmp/s"] run_ok sample_world).
  vm_compute. reflexivity.
Defined.

(** X12 at a /trim Job whose engine ends without writing the output. *)
Lemma trim_end_without_output :
  let out := output_path Trim (clock sample_world) in
  ∃ w' t m,
    serve sample_client id Trim sample_request (mkRun None SigEnd) sample_world
    = (Returned tt, w')
    ∧ trace w' = trace sample_world ++ t
    ∧ uploads t = []
    ∧ bucket w' = bucket sample_world
    ∧ responses t
      = [(500%Z,
          error_payload (upload_failed_error Trim)
            ("ENOENT: no such file or directory, open '" +:+ out +:+ "'"), m)].
Proof.
  apply (end_without_output_is_upload_failure sample_client id Trim sample_request
           ["/tmp/abc"] (mkRun None SigEnd) sample_world).
  - reflexivity.
  - reflexivity.
  - vm_compute. reflexivity.
Defined.
